(** * requests_pkcs12: a shallow embedding of [requests_pkcs12.py]

    The module turns a PKCS#12 bundle into a TLS client context
    ([create_sslcontext]) and plugs that context into the HTTP client through
    a transport adapter ([Pkcs12Adapter]).  The Python code is embedded as
    state-passing functions over a [world] (file system, system clock, the
    store of TLS context objects); exceptions are values of [result]. *)

From Stdlib Require Import ZArith String Ascii List DecimalString DecimalN
  DecimalPos.
From stdpp Require Import gmap strings list.

Set Warnings "-register-all".

Open Scope string_scope.

(** ** Python values and exceptions *)

Abbreviation bytes := (list Byte.byte).

(** The values the code inspects with [is None], [is False] and
    [isinstance]: the password and the per-request [verify] argument. *)
Inductive pyval : Type :=
  | PyNone
  | PyBool (b : bool)
  | PyInt (n : Z)
  | PyBytes (b : bytes)
  | PyStr (s : list N)          (* a text string, as Unicode code points *)
  | PyObject (type_name : string).

Inductive pyclass : Type :=
  | ValueError
  | TypeError
  | AttributeError
  | FileNotFoundError
  | UnicodeEncodeError
  | SSLError
  | LibraryError (name : string).

(** An exception object: class, message and [__context__] (the exception
    that was being handled when this one was raised). *)
Inductive exn : Type :=
  | Exn (cls : pyclass) (msg : string) (context : option exn).

Definition exn_class (e : exn) : pyclass := let 'Exn c _ _ := e in c.
Definition exn_msg (e : exn) : string := let 'Exn _ m _ := e in m.
Definition exn_context (e : exn) : option exn := let 'Exn _ _ c := e in c.

(** Raising [e] while [handled] is in flight sets [e.__context__]. *)
Definition with_context (e handled : exn) : exn :=
  Exn (exn_class e) (exn_msg e) (Some handled).

Inductive result (A : Type) : Type :=
  | Ok (a : A)
  | Raise (e : exn).
Arguments Ok {A} a.
Arguments Raise {A} e.

(** ** [datetime.datetime] *)

Record datetime : Type := mk_datetime {
  year : Z; month : Z; day : Z;
  hour : Z; minute : Z; second : Z; microsecond : Z
}.

Definition datetime_fields (d : datetime) : list Z :=
  [year d; month d; day d; hour d; minute d; second d; microsecond d].

Fixpoint lex_compare (a b : list Z) : comparison :=
  match a, b with
  | [], [] => Eq
  | [], _ :: _ => Lt
  | _ :: _, [] => Gt
  | x :: a', y :: b' =>
      match (x ?= y)%Z with
      | Eq => lex_compare a' b'
      | c => c
      end
  end.

(** [a < b] on naive datetimes: field by field, most significant first. *)
Definition datetime_ltb (a b : datetime) : bool :=
  match lex_compare (datetime_fields a) (datetime_fields b) with
  | Lt => true
  | _ => false
  end.

Definition digit (n : Z) : ascii := ascii_of_N (48 + Z.to_N (n mod 10)%Z).

Definition pad2 (n : Z) : string :=
  String (digit (n / 10)%Z) (String (digit n) EmptyString).

(** [n] in decimal, as many digits as it has: what [%Y] prints for a year
    (a year before 1000 is not padded with zeros). *)
Definition decimal (n : Z) : string :=
  NilZero.string_of_uint (N.to_uint (Z.to_N n)).

(** The format specification ['%Y-%m-%d %H:%M:%SZ']. *)
Definition strftime (d : datetime) : string :=
  decimal (year d) ++ "-" ++ pad2 (month d) ++ "-" ++ pad2 (day d) ++ " " ++
  pad2 (hour d) ++ ":" ++ pad2 (minute d) ++ ":" ++ pad2 (second d) ++ "Z".

(** ** The world *)

Inductive io_event : Type :=
  | EvCreate (path : string)
  | EvWrite (path : string) (data : bytes)
  | EvFlush (path : string)
  | EvClose (path : string)
  | EvRemove (path : string)
  | EvRead (path : string).

Inductive ssl_protocol : Type :=
  | PROTOCOL_TLS_CLIENT
  | PROTOCOL_SSLv23
  | PROTOCOL_TLS_SERVER.

Inductive verify_mode : Type := CERT_NONE | CERT_OPTIONAL | CERT_REQUIRED.

(** An [ssl.SSLContext] object. *)
Record ssl_context : Type := mk_ssl_context {
  protocol : ssl_protocol;
  check_hostname : bool;
  ctx_verify_mode : verify_mode;
  cert_chain : option (bytes * option bytes)
}.

Definition loc := nat.

Record world : Type := mk_world {
  fs : gmap string bytes;          (* the files on disk *)
  open_files : gset string;        (* the files this process holds open *)
  io_log : list io_event;          (* the file operations performed so far *)
  clock_reads : nat;               (* how often the system clock was read *)
  heap : loc -> ssl_context;       (* the TLS context objects, by reference *)
  next_loc : loc
}.

(** ** Computations: world passing with exceptions *)

Definition M (A : Type) : Type := world -> result A * world.

Definition ret {A} (a : A) : M A := fun w => (Ok a, w).
Definition raise {A} (e : exn) : M A := fun w => (Raise e, w).
Definition bind {A B} (m : M A) (k : A -> M B) : M B :=
  fun w => match m w with
           | (Ok a, w1) => k a w1
           | (Raise e, w1) => (Raise e, w1)
           end.
Definition lift {A} (r : result A) : M A := fun w => (r, w).

Notation "'do' x <- m ; k" := (bind m (fun x => k))
  (at level 10, x pattern, m at level 100, k at level 200).
Notation "m ;; k" := (bind m (fun _ => k))
  (at level 100, k at level 200, right associativity).

(** [try: body finally: fin].  [fin] always runs; when it raises, its
    exception is the one that propagates, with the exception that was in
    flight (if any) as its context. *)
Definition try_finally {A} (body : M A) (fin : M unit) : M A :=
  fun w =>
    match body w with
    | (Ok a, w1) =>
        match fin w1 with
        | (Ok _, w2) => (Ok a, w2)
        | (Raise e, w2) => (Raise e, w2)
        end
    | (Raise e, w1) =>
        match fin w1 with
        | (Ok _, w2) => (Raise e, w2)
        | (Raise e', w2) => (Raise (with_context e' e), w2)
        end
    end.

Definition set_fs (f : gmap string bytes) (w : world) : world :=
  mk_world f (open_files w) (io_log w) (clock_reads w) (heap w) (next_loc w).
Definition set_open_files (o : gset string) (w : world) : world :=
  mk_world (fs w) o (io_log w) (clock_reads w) (heap w) (next_loc w).
Definition add_event (ev : io_event) (w : world) : world :=
  mk_world (fs w) (open_files w) (io_log w ++ [ev])%list (clock_reads w) (heap w)
    (next_loc w).
Definition tick (w : world) : world :=
  mk_world (fs w) (open_files w) (io_log w) (S (clock_reads w)) (heap w)
    (next_loc w).
Definition set_heap (h : loc -> ssl_context) (w : world) : world :=
  mk_world (fs w) (open_files w) (io_log w) (clock_reads w) h (next_loc w).

(** ** External collaborators *)

(** The system clock: [clock_at n] is what the [n]-th read returns. *)
Class Clock : Type := { clock_at : nat -> datetime }.

Definition utcnow `{Clock} : M datetime :=
  fun w => (Ok (clock_at (clock_reads w)), tick w).

(** The [cryptography] package, as far as the module uses it. *)
Class Cryptography : Type := {
  private_key : Type;
  certificate : Type;
  not_valid_after : certificate -> datetime;
  load_key_and_certificates :
    bytes -> option bytes ->
    result (option private_key * option certificate * list certificate);
  encryption : Type;
  BestAvailableEncryption : bytes -> result encryption;
  NoEncryption : encryption;
  (* [key.private_bytes(PEM, TraditionalOpenSSL, enc)] *)
  private_bytes : private_key -> encryption -> result bytes;
  (* [cert.public_bytes(PEM)] *)
  public_bytes : certificate -> bytes
}.

(** ** [check_cert_not_after] *)

Definition expired_message (cert_not_after : datetime) : string :=
  "Client certificate expired: Not After: " ++ strftime cert_not_after.

Definition check_cert_not_after `{Clock} `{Cryptography}
    (cert : option certificate) : M unit :=
  match cert with
  | None =>
      raise (Exn AttributeError
               "'NoneType' object has no attribute 'not_valid_after'" None)
  | Some c =>
      let cert_not_after := not_valid_after c in
      do now <- utcnow;
      if datetime_ltb cert_not_after now
      then raise (Exn ValueError (expired_message cert_not_after) None)
      else ret tt
  end.

(** ** Files *)

(** [tempfile.NamedTemporaryFile(delete=False)]: a new, empty file under a
    name that no existing file has; the file is open for writing. *)
Definition tmp_name (w : world) : string := fresh (dom (fs w)).

Definition NamedTemporaryFile : M string :=
  fun w =>
    let name := tmp_name w in
    (Ok name,
     add_event (EvCreate name)
       (set_open_files ({[name]} ∪ open_files w)
          (set_fs (<[name := []]> (fs w)) w))).

Definition c_write (c : string) (buf : bytes) : M unit :=
  fun w => (Ok tt, add_event (EvWrite c buf)
                     (set_fs (alter (fun old => (old ++ buf)%list) c (fs w)) w)).

Definition c_flush (c : string) : M unit :=
  fun w => (Ok tt, add_event (EvFlush c) w).

(** [c.close()]; closing a closed file does nothing. *)
Definition c_close (c : string) : M unit :=
  fun w =>
    if decide (c ∈ open_files w)
    then (Ok tt, add_event (EvClose c)
                   (set_open_files (open_files w ∖ {[c]}) w))
    else (Ok tt, w).

(** [with tempfile.NamedTemporaryFile(delete=False) as c: body]: leaving
    the block closes the file, whether [body] returned or raised. *)
Definition with_NamedTemporaryFile {A} (body : string -> M A) : M A :=
  do c <- NamedTemporaryFile;
  try_finally (body c) (c_close c).

Definition no_such_file (path : string) : exn :=
  Exn FileNotFoundError
    ("[Errno 2] No such file or directory: '" ++ path ++ "'") None.

(** [os.remove(path)] *)
Definition os_remove (path : string) : M unit :=
  fun w =>
    match fs w !! path with
    | Some _ => (Ok tt, add_event (EvRemove path) (set_fs (delete path (fs w)) w))
    | None => (Raise (no_such_file path), w)
    end.

(** [open(path, 'rb').read()] *)
Definition read_file (path : string) : M bytes :=
  fun w =>
    match fs w !! path with
    | Some data => (Ok data, add_event (EvRead path) w)
    | None => (Raise (no_such_file path), w)
    end.

(** ** TLS contexts *)

(** [ssl.SSLContext(protocol)]: a new context object; hostname checking is
    on by default for the client profile only. *)
Definition new_context (p : ssl_protocol) : ssl_context :=
  match p with
  | PROTOCOL_TLS_CLIENT => mk_ssl_context p true CERT_REQUIRED None
  | _ => mk_ssl_context p false CERT_NONE None
  end.

Definition update_heap (l : loc) (c : ssl_context) (h : loc -> ssl_context)
    : loc -> ssl_context :=
  fun l' => if decide (l' = l) then c else h l'.

Definition SSLContext (p : ssl_protocol) : M loc :=
  fun w =>
    let l := next_loc w in
    (Ok l, mk_world (fs w) (open_files w) (io_log w) (clock_reads w)
             (update_heap l (new_context p) (heap w)) (S l)).

(** The platform TLS stack.  [ctx.load_cert_chain(path, password)] runs
    outside the module: it sees the files on disk and the context object,
    and returns with both possibly changed. *)
Class TlsLibrary : Type := {
  tls_load_cert_chain :
    gmap string bytes -> ssl_context -> string -> option bytes ->
    result unit * gmap string bytes * ssl_context
}.

Definition load_cert_chain `{TlsLibrary} (ctx : loc) (path : string)
    (password : option bytes) : M unit :=
  fun w =>
    let '(r, files, c) := tls_load_cert_chain (fs w) (heap w ctx) path password in
    (r, set_heap (update_heap ctx c (heap w)) (set_fs files w)).

(** ** [create_sslcontext] *)

Definition none_has_no_attribute (attr : string) : exn :=
  Exn AttributeError
    ("'NoneType' object has no attribute '" ++ attr ++ "'") None.

Fixpoint for_each {A} (l : list A) (body : A -> M unit) : M unit :=
  match l with
  | [] => ret tt
  | x :: l' => body x ;; for_each l' body
  end.

Section CreateSslContext.
Context {clock : Clock} {crypto : Cryptography} {tls : TlsLibrary}.

(** [private_key.private_bytes(PEM, TraditionalOpenSSL, <encryption>)]:
    the attribute is looked up first, then the encryption argument is
    evaluated, then the method is called. *)
Definition serialize_private_key (key : option private_key)
    (pkcs12_password_bytes : option bytes) : result bytes :=
  match key with
  | None => Raise (none_has_no_attribute "private_bytes")
  | Some k =>
      match pkcs12_password_bytes with
      | Some password =>
          match BestAvailableEncryption password with
          | Ok enc => private_bytes k enc
          | Raise e => Raise e
          end
      | None => private_bytes k NoEncryption
      end
  end.

Definition cert_public_bytes (cert : option certificate) : result bytes :=
  match cert with
  | None => Raise (none_has_no_attribute "public_bytes")
  | Some c => Ok (public_bytes c)
  end.

(** The body of the loop over the chain, lines 66-68. *)
Definition chain_step (c : string) (ca_cert : certificate) : M unit :=
  check_cert_not_after (Some ca_cert) ;;
  c_write c (public_bytes ca_cert).

(** The suite of the [try] statement, lines 49-71. *)
Definition materialize_and_load (ssl_context : loc) (c : string)
    (key : option private_key) (cert : option certificate)
    (ca_certs : list certificate) (pkcs12_password_bytes : option bytes)
    : M unit :=
  do pk_buf <- lift (serialize_private_key key pkcs12_password_bytes);
  c_write c pk_buf ;;
  do buf <- lift (cert_public_bytes cert);
  c_write c buf ;;
  (match ca_certs with
   | [] => ret tt
   | _ :: _ => for_each ca_certs (chain_step c)
   end) ;;
  c_flush c ;;
  c_close c ;;
  load_cert_chain ssl_context c pkcs12_password_bytes.

Definition create_sslcontext (pkcs12_data : bytes)
    (pkcs12_password_bytes : option bytes) (protocol : ssl_protocol)
    : M loc :=
  do decoded <-
    lift (load_key_and_certificates pkcs12_data pkcs12_password_bytes);
  let '(key, cert, ca_certs) := decoded in
  check_cert_not_after cert ;;
  do ssl_context <- SSLContext protocol;
  with_NamedTemporaryFile (fun c =>
    try_finally
      (materialize_and_load ssl_context c key cert ca_certs
         pkcs12_password_bytes)
      (os_remove c)) ;;
  ret ssl_context.

End CreateSslContext.

(** ** Passwords *)

Definition byte_of_N (n : N) : Byte.byte :=
  match Byte.of_N n with Some b => b | None => Byte.x00 end.

(** UTF-8 of one code point; lone surrogates cannot be encoded. *)
Definition utf8_encode_char (cp : N) : option bytes :=
  if (cp <? 128)%N then Some [byte_of_N cp]
  else if (cp <? 2048)%N then
    Some [byte_of_N (192 + cp / 64); byte_of_N (128 + cp mod 64)]
  else if (cp <? 65536)%N then
    if ((55296 <=? cp) && (cp <=? 57343))%N then None
    else Some [byte_of_N (224 + cp / 4096);
               byte_of_N (128 + (cp / 64) mod 64);
               byte_of_N (128 + cp mod 64)]
  else
    Some [byte_of_N (240 + cp / 262144);
          byte_of_N (128 + (cp / 4096) mod 64);
          byte_of_N (128 + (cp / 64) mod 64);
          byte_of_N (128 + cp mod 64)].

(** [s.encode('utf8')]; the error message is shortened (it does not name
    the character and its position). *)
Fixpoint encode_utf8 (s : list N) : result bytes :=
  match s with
  | [] => Ok []
  | cp :: s' =>
      match utf8_encode_char cp, encode_utf8 s' with
      | Some b, Ok rest => Ok (b ++ rest)%list
      | None, _ =>
          Raise (Exn UnicodeEncodeError
                   "'utf-8' codec can't encode character: surrogates not allowed"
                   None)
      | _, Raise e => Raise e
      end
  end.

(** Lines 90-97 of [Pkcs12Adapter.__init__]. *)
Definition password_bytes (pkcs12_password : pyval) : result (option bytes) :=
  match pkcs12_password with
  | PyNone => Ok None
  | PyBytes b => Ok (Some b)
  | PyStr s =>
      match encode_utf8 s with
      | Ok b => Ok (Some b)
      | Raise e => Raise e
      end
  | _ => Raise (Exn TypeError "Password must be a None, string or bytes." None)
  end.

(** ** The HTTP client library ([requests]) *)

Class HttpClient : Type := {
  base_adapter : Type;              (* what [HTTPAdapter.__init__] sets up *)
  connection : Type;
  prepared_request : Type;
  response : Type;
  session : Type;
  HTTPAdapter_init : list pyval -> gmap string pyval -> M base_adapter;
  HTTPAdapter_cert_verify :
    base_adapter -> connection -> string -> pyval -> pyval -> M unit;
  HTTPAdapter_send :
    base_adapter -> prepared_request ->
    pyval -> pyval -> pyval -> pyval -> pyval -> M response;
  requests_request : list pyval -> gmap string pyval -> M response;
  Session : M session;
  Session_mount : session -> string -> loc -> base_adapter -> M unit;
  Session_request : session -> list pyval -> gmap string pyval -> M response;
  Session_close : session -> M unit
}.

(** The keyword arguments of [Pkcs12Adapter.__init__] and of [request]:
    the four the module pops and the rest.  For the three [pkcs12_*] keys an
    absent key and an explicit [None] are the same to
    [kwargs.pop(key, None)]; [kw_ssl_protocol = None] stands for an absent
    [ssl_protocol] key (a call that passes [ssl_protocol=None] explicitly is
    outside the model). *)
Record keywords : Type := mk_keywords {
  kw_pkcs12_data : option bytes;
  kw_pkcs12_filename : option string;
  kw_pkcs12_password : pyval;
  kw_ssl_protocol : option ssl_protocol;
  kw_rest : gmap string pyval
}.

Definition dq : string := String (ascii_of_nat 34) EmptyString.

Definition missing_source_error : exn :=
  Exn ValueError
    ("Both arguments " ++ dq ++ "pkcs12_data" ++ dq ++ " and " ++ dq ++
     "pkcs12_filename" ++ dq ++ " are missing") None.

Definition conflicting_source_error : exn :=
  Exn ValueError
    ("Argument " ++ dq ++ "pkcs12_data" ++ dq ++ " conflicts with " ++ dq ++
     "pkcs12_filename" ++ dq) None.

Definition cert_conflict_error : exn :=
  Exn ValueError
    ("Argument " ++ dq ++ "cert" ++ dq ++ " conflicts with " ++ dq ++
     "pkcs12_*" ++ dq ++ " arguments") None.

Definition password_type_error : exn :=
  Exn TypeError "Password must be a None, string or bytes." None.

(** ** [ssl.SSLContext.check_hostname] *)

(** Assigning [True] on a context whose verify mode is [CERT_NONE] also
    switches the verify mode to [CERT_REQUIRED]. *)
Definition assign_check_hostname (b : bool) (c : ssl_context) : ssl_context :=
  mk_ssl_context (protocol c) b
    (match b, ctx_verify_mode c with
     | true, CERT_NONE => CERT_REQUIRED
     | _, m => m
     end)
    (cert_chain c).

Definition get_check_hostname (ctx : loc) : M bool :=
  fun w => (Ok (check_hostname (heap w ctx)), w).

Definition set_check_hostname (ctx : loc) (b : bool) : M unit :=
  fun w =>
    (Ok tt,
     set_heap (update_heap ctx (assign_check_hostname b (heap w ctx)) (heap w)) w).

(** [verify is False] *)
Definition is_False (v : pyval) : bool :=
  match v with
  | PyBool false => true
  | _ => false
  end.

(** [x is None] *)
Definition is_None (v : pyval) : bool :=
  match v with
  | PyNone => true
  | _ => false
  end.

(** ** [Pkcs12Adapter] and [request] *)

Section Adapter.
Context {clock : Clock} {crypto : Cryptography} {tls : TlsLibrary}
  {http : HttpClient}.

(** [PROTOCOL_TLS_CLIENT] where the [ssl] module has it. *)
Variable default_ssl_protocol : ssl_protocol.

Record Pkcs12Adapter : Type := mk_Pkcs12Adapter {
  adapter_ssl_context : loc;
  adapter_base : base_adapter
}.

Definition Pkcs12Adapter_init (args : list pyval) (kwargs : keywords)
    : M Pkcs12Adapter :=
  let pkcs12_password := kw_pkcs12_password kwargs in
  let ssl_protocol :=
    match kw_ssl_protocol kwargs with
    | Some p => p
    | None => default_ssl_protocol
    end in
  do pkcs12_data <-
    match kw_pkcs12_data kwargs, kw_pkcs12_filename kwargs with
    | None, None => raise missing_source_error
    | Some _, Some _ => raise conflicting_source_error
    | None, Some pkcs12_filename => read_file pkcs12_filename
    | Some pkcs12_data, None => ret pkcs12_data
    end;
  do pkcs12_password_bytes <- lift (password_bytes pkcs12_password);
  do ssl_context <-
    create_sslcontext pkcs12_data pkcs12_password_bytes ssl_protocol;
  do base <- HTTPAdapter_init args (kw_rest kwargs);
  ret (mk_Pkcs12Adapter ssl_context base).

Definition cert_verify (self : Pkcs12Adapter) (conn : connection)
    (url : string) (verify cert : pyval) : M unit :=
  do check_hostname <- get_check_hostname (adapter_ssl_context self);
  try_finally
    ((if is_False verify
      then set_check_hostname (adapter_ssl_context self) false
      else ret tt) ;;
     HTTPAdapter_cert_verify (adapter_base self) conn url verify cert)
    (set_check_hostname (adapter_ssl_context self) check_hostname).

Definition send (self : Pkcs12Adapter) (request : prepared_request)
    (stream timeout verify cert proxies : pyval) : M response :=
  do check_hostname <- get_check_hostname (adapter_ssl_context self);
  try_finally
    ((if is_False verify
      then set_check_hostname (adapter_ssl_context self) false
      else ret tt) ;;
     HTTPAdapter_send (adapter_base self) request stream timeout verify cert
       proxies)
    (set_check_hostname (adapter_ssl_context self) check_hostname).

Definition request (args : list pyval) (kwargs : keywords) : M response :=
  let pkcs12_data := kw_pkcs12_data kwargs in
  let pkcs12_filename := kw_pkcs12_filename kwargs in
  let pkcs12_password := kw_pkcs12_password kwargs in
  let ssl_protocol :=
    match kw_ssl_protocol kwargs with
    | Some p => p
    | None => default_ssl_protocol
    end in
  match pkcs12_data, pkcs12_filename, is_None pkcs12_password with
  | None, None, true => requests_request args (kw_rest kwargs)
  | _, _, _ =>
      if decide ("cert" ∈ dom (kw_rest kwargs))
      then raise cert_conflict_error
      else
        do session <- Session;
        try_finally
          (do pkcs12_adapter <-
             Pkcs12Adapter_init []
               (mk_keywords pkcs12_data pkcs12_filename pkcs12_password
                  (Some ssl_protocol) ∅);
           Session_mount session "https://"
             (adapter_ssl_context pkcs12_adapter)
             (adapter_base pkcs12_adapter) ;;
           Session_request session args (kw_rest kwargs))
          (Session_close session)
  end.

End Adapter.


(** ** Reading the materialized file back

    The module only writes PEM.  To state that nothing is lost, the
    reader's side of the [cryptography] package: each function takes one
    block off the front of a byte string. *)

Class PemReader `{Cryptography} : Type := {
  read_private_key : option bytes -> bytes -> option (private_key * bytes);
  read_certificate : bytes -> option (certificate * bytes)
}.

Fixpoint read_certificates `{PemReader} (fuel : nat) (data : bytes)
    : list certificate :=
  match fuel with
  | O => []
  | S n =>
      match read_certificate data with
      | Some (c, rest) => c :: read_certificates n rest
      | None => []
      end
  end.

Definition decode_pem_sequence `{PemReader} (password : option bytes)
    (data : bytes) : option (private_key * certificate * list certificate) :=
  match read_private_key password data with
  | Some (key, rest) =>
      match read_certificates (length rest) rest with
      | leaf :: chain => Some (key, leaf, chain)
      | [] => None
      end
  | None => None
  end.

(** ** Descriptions used in the statements *)

(** [datetime_ltb] spelled out as a proposition. *)
Definition datetime_lt (a b : datetime) : Prop :=
  (year a < year b \/ year a = year b /\
  (month a < month b \/ month a = month b /\
  (day a < day b \/ day a = day b /\
  (hour a < hour b \/ hour a = hour b /\
  (minute a < minute b \/ minute a = minute b /\
  (second a < second b \/ second a = second b /\
   microsecond a < microsecond b))))))%Z.

Definition with_microsecond (us : Z) (d : datetime) : datetime :=
  mk_datetime (year d) (month d) (day d) (hour d) (minute d) (second d) us.

(** The certificate is expired at the [n]-th reading of the clock. *)
Definition expired_at `{Clock} `{Cryptography} (n : nat) (c : certificate)
    : bool :=
  datetime_ltb (not_valid_after c) (clock_at n).

(** The errors the spec calls configuration errors. *)
Definition is_configuration_error (e : exn) : Prop :=
  e = missing_source_error \/ e = conflicting_source_error \/
  e = password_type_error.

Definition valid_password_type (v : pyval) : bool :=
  match v with
  | PyNone | PyBytes _ | PyStr _ => true
  | _ => false
  end.

(** The world in which the [try] statement of [create_sslcontext] starts
    once decoding and the leaf check have passed: the clock was read once,
    the context object exists, the temporary file was created. *)
Definition world_at_try (protocol : ssl_protocol) (w : world) : world :=
  snd (NamedTemporaryFile (snd (SSLContext protocol (tick w)))).

(** The world after the loop of lines 65-68 went through [l] without an
    expired certificate: per certificate one clock read and one write. *)
Fixpoint after_chain `{Cryptography} (c : string) (l : list certificate)
    (w : world) : world :=
  match l with
  | [] => w
  | ca_cert :: l' =>
      after_chain c l' (snd (c_write c (public_bytes ca_cert) (tick w)))
  end.

(** The world in which [load_cert_chain] is called, line 71. *)
Definition world_at_load `{Cryptography} (c : string) (pk_buf : bytes)
    (leaf : certificate) (chain : list certificate) (w1 : world) : world :=
  snd (c_close c
    (snd (c_flush c
      (after_chain c chain
        (snd (c_write c (public_bytes leaf)
          (snd (c_write c pk_buf w1)))))))).

(** What is left of [create_sslcontext] from line 71 on. *)
Definition load_and_clean_up `{TlsLibrary} (ssl_context : loc) (c : string)
    (pkcs12_password_bytes : option bytes) : M loc :=
  try_finally
    (try_finally (load_cert_chain ssl_context c pkcs12_password_bytes)
       (os_remove c))
    (c_close c) ;;
  ret ssl_context.

(** The [c.write] events of a list of certificates. *)
Definition chain_writes `{Cryptography} (c : string) (l : list certificate)
    : list io_event :=
  map (fun ca_cert => EvWrite c (public_bytes ca_cert)) l.

(** The call appended events to the log, each of them satisfying [P]. *)
Definition log_extends (P : io_event -> Prop) (w w' : world) : Prop :=
  exists l, io_log w' = (io_log w ++ l)%list /\ Forall P l.

(** Whatever the world, [m] only appends events satisfying [P]. *)
Definition appends {A} (P : io_event -> Prop) (m : M A) : Prop :=
  forall w, log_extends P w (snd (m w)).

(** The event is not the creation of a file. *)
Definition creates_nothing (ev : io_event) : Prop :=
  forall p, ev <> EvCreate p.

(** ** A certificate store and collaborators to run the model on *)

Record sample_cert : Type := mk_sample_cert {
  cert_id : Byte.byte;
  cert_expired : bool
}.

Definition sample_leaf : sample_cert := mk_sample_cert Byte.x10 false.
Definition sample_ca1 : sample_cert := mk_sample_cert Byte.x11 false.
Definition sample_ca2 : sample_cert := mk_sample_cert Byte.x12 false.
Definition sample_old_ca : sample_cert := mk_sample_cert Byte.x13 true.
Definition sample_old_leaf : sample_cert := mk_sample_cert Byte.x14 true.

Definition sample_now : datetime := mk_datetime 2024 6 1 12 0 0 500.

#[local] Instance sample_clock : Clock := {| clock_at := fun _ => sample_now |}.

Definition sample_not_valid_after (c : sample_cert) : datetime :=
  if cert_expired c
  then mk_datetime 2020 1 2 3 4 5 0
  else mk_datetime 2030 1 2 3 4 5 0.

Definition sample_decode (data : bytes) (password : option bytes)
    : result (option Byte.byte * option sample_cert * list sample_cert) :=
  match data with
  | [Byte.x01] => Ok (Some Byte.x07, Some sample_leaf, [sample_ca1; sample_ca2])
  | [Byte.x02] => Ok (Some Byte.x07, Some sample_leaf, [sample_ca1; sample_old_ca])
  | [Byte.x03] => Ok (Some Byte.x07, Some sample_old_leaf, [sample_ca1])
  | _ => Raise (Exn ValueError "Invalid password or PKCS12 data" None)
  end.

Definition sample_best_available (password : bytes) : result (option bytes) :=
  match password with
  | [] => Raise (Exn ValueError "Password must be 1 or more bytes." None)
  | _ => Ok (Some password)
  end.

Definition sample_private_bytes (key : Byte.byte) (enc : option bytes)
    : result bytes :=
  Ok [Byte.x4b; key; match enc with Some _ => Byte.x01 | None => Byte.x00 end].

Definition sample_public_bytes (c : sample_cert) : bytes :=
  [Byte.x43; cert_id c; if cert_expired c then Byte.x01 else Byte.x00].

#[local] Instance sample_crypto : Cryptography := {|
  private_key := Byte.byte;
  certificate := sample_cert;
  not_valid_after := sample_not_valid_after;
  load_key_and_certificates := sample_decode;
  encryption := option bytes;
  BestAvailableEncryption := sample_best_available;
  NoEncryption := None;
  private_bytes := sample_private_bytes;
  public_bytes := sample_public_bytes
|}.

Definition sample_read_private_key (password : option bytes) (data : bytes)
    : option (Byte.byte * bytes) :=
  match data with
  | Byte.x4b :: key :: _ :: rest => Some (key, rest)
  | _ => None
  end.

Definition sample_read_certificate (data : bytes)
    : option (sample_cert * bytes) :=
  match data with
  | Byte.x43 :: id :: Byte.x00 :: rest => Some (mk_sample_cert id false, rest)
  | Byte.x43 :: id :: Byte.x01 :: rest => Some (mk_sample_cert id true, rest)
  | _ => None
  end.

#[local] Instance sample_reader : PemReader := {|
  read_private_key := sample_read_private_key;
  read_certificate := sample_read_certificate
|}.

(** A TLS stack that accepts every chain it can read. *)
Definition accepting_load (files : gmap string bytes) (ctx : ssl_context)
    (path : string) (password : option bytes)
    : result unit * gmap string bytes * ssl_context :=
  match files !! path with
  | Some data =>
      (Ok tt, files,
       mk_ssl_context (protocol ctx) (check_hostname ctx) (ctx_verify_mode ctx)
         (Some (data, password)))
  | None => (Raise (no_such_file path), files, ctx)
  end.

#[local] Instance accepting_tls : TlsLibrary :=
  {| tls_load_cert_chain := accepting_load |}.

Definition key_mismatch : exn :=
  Exn SSLError "[SSL] PEM lib (_ssl.c:3874)" None.

(** A run in which the chain is rejected and, by the time the call
    returns, the temporary file has been removed by somebody else. *)
Definition rejecting_load_file_gone (files : gmap string bytes)
    (ctx : ssl_context) (path : string) (password : option bytes)
    : result unit * gmap string bytes * ssl_context :=
  (Raise key_mismatch, delete path files, ctx).

Definition rejecting_tls_file_gone : TlsLibrary :=
  {| tls_load_cert_chain := rejecting_load_file_gone |}.

(** An HTTP client whose operations do nothing. *)
#[local] Instance sample_http : HttpClient := {|
  base_adapter := unit;
  connection := unit;
  prepared_request := unit;
  response := nat;
  session := unit;
  HTTPAdapter_init := fun _ _ => ret tt;
  HTTPAdapter_cert_verify := fun _ _ _ _ _ => ret tt;
  HTTPAdapter_send := fun _ _ _ _ _ _ _ => ret 200;
  requests_request := fun _ _ => ret 200;
  Session := ret tt;
  Session_mount := fun _ _ _ _ => ret tt;
  Session_request := fun _ _ _ => ret 200;
  Session_close := fun _ => ret tt
|}.

Definition connection_error : exn :=
  Exn (LibraryError "requests.exceptions.ConnectionError")
    "Max retries exceeded" None.

(** A wrapped [send] that switches hostname checking of context 0 on and
    then fails. *)
Definition failing_send : M nat :=
  fun w =>
    (Raise connection_error,
     set_heap (update_heap 0 (assign_check_hostname true (heap w 0)) (heap w)) w).

Definition failing_http : HttpClient := {|
  base_adapter := unit;
  connection := unit;
  prepared_request := unit;
  response := nat;
  session := unit;
  HTTPAdapter_init := fun _ _ => ret tt;
  HTTPAdapter_cert_verify := fun _ _ _ _ _ => raise connection_error;
  HTTPAdapter_send := fun _ _ _ _ _ _ _ => failing_send;
  requests_request := fun _ _ => ret 200;
  Session := ret tt;
  Session_mount := fun _ _ _ _ => ret tt;
  Session_request := fun _ _ _ => ret 200;
  Session_close := fun _ => ret tt
|}.

(** A world whose context 0 has hostname checking off. *)
Definition unchecked_world : world :=
  mk_world ∅ ∅ [] 0 (fun _ => new_context PROTOCOL_SSLv23) 1.

Definition sample_world : world :=
  mk_world ∅ ∅ [] 0 (fun _ => new_context PROTOCOL_TLS_CLIENT) 0.

Definition sample_url : string := "https://example.com/".

Definition sample_adapter : Pkcs12Adapter := mk_Pkcs12Adapter 0 tt.

Definition password_only_keywords (rest : gmap string pyval) : keywords :=
  mk_keywords None None (PyBytes [Byte.x70]) None rest.

Definition sample_key_block : bytes := [Byte.x4b; Byte.x07; Byte.x00].


(** ** The pool managers *)

(** A keyword argument of the pool-manager constructors: a plain value or
    a reference to a TLS context object. *)
Inductive kwarg : Type :=
  | KwValue (v : pyval)
  | KwContext (ctx : loc).

(** [HTTPAdapter.init_poolmanager] and [HTTPAdapter.proxy_manager_for]. *)
Class PoolManagers {http : HttpClient} : Type := {
  proxy_manager : Type;
  HTTPAdapter_init_poolmanager :
    base_adapter -> list pyval -> gmap string kwarg -> M unit;
  HTTPAdapter_proxy_manager_for :
    base_adapter -> list pyval -> gmap string kwarg -> M proxy_manager
}.

(** Lines 102-110.  [self.ssl_context] is the context object that
    [__init__] stored, which is true in a condition. *)
Definition init_poolmanager {http : HttpClient} {pools : PoolManagers}
    (self : Pkcs12Adapter) (args : list pyval) (kwargs : gmap string kwarg)
    : M unit :=
  HTTPAdapter_init_poolmanager (adapter_base self) args
    (<["ssl_context" := KwContext (adapter_ssl_context self)]> kwargs).

Definition proxy_manager_for {http : HttpClient} {pools : PoolManagers}
    (self : Pkcs12Adapter) (args : list pyval) (kwargs : gmap string kwarg)
    : M proxy_manager :=
  HTTPAdapter_proxy_manager_for (adapter_base self) args
    (<["ssl_context" := KwContext (adapter_ssl_context self)]> kwargs).

(** ** The request methods, lines 149-171 *)

(** A text string given by its characters. *)
Definition py_str (s : string) : pyval :=
  PyStr (map N_of_ascii (list_ascii_of_string s)).

(** [kwargs.setdefault(key, v)] for a key that is none of the four the
    module pops. *)
Definition setdefault (key : string) (v : pyval) (kwargs : keywords)
    : keywords :=
  mk_keywords (kw_pkcs12_data kwargs) (kw_pkcs12_filename kwargs)
    (kw_pkcs12_password kwargs) (kw_ssl_protocol kwargs)
    (match kw_rest kwargs !! key with
     | Some _ => kw_rest kwargs
     | None => <[key := v]> (kw_rest kwargs)
     end).

Module Methods.
Section Methods.
Context {clock : Clock} {crypto : Cryptography} {tls : TlsLibrary}
  {http : HttpClient}.
Variable default_ssl_protocol : ssl_protocol.

Definition delete (args : list pyval) (kwargs : keywords) : M response :=
  request default_ssl_protocol (py_str "delete" :: args) kwargs.

Definition get (args : list pyval) (kwargs : keywords) : M response :=
  request default_ssl_protocol (py_str "get" :: args)
    (setdefault "allow_redirects" (PyBool true) kwargs).

Definition head (args : list pyval) (kwargs : keywords) : M response :=
  request default_ssl_protocol (py_str "head" :: args)
    (setdefault "allow_redirects" (PyBool false) kwargs).

Definition options (args : list pyval) (kwargs : keywords) : M response :=
  request default_ssl_protocol (py_str "options" :: args)
    (setdefault "allow_redirects" (PyBool true) kwargs).

Definition patch (args : list pyval) (kwargs : keywords) : M response :=
  request default_ssl_protocol (py_str "patch" :: args) kwargs.

Definition post (args : list pyval) (kwargs : keywords) : M response :=
  request default_ssl_protocol (py_str "post" :: args) kwargs.

Definition put (args : list pyval) (kwargs : keywords) : M response :=
  request default_ssl_protocol (py_str "put" :: args) kwargs.

End Methods.
End Methods.

(** ** More descriptions used in the statements *)

(** The keyword arguments [request] constructs the adapter with, lines
    140-145. *)
Definition adapter_keywords (default_ssl_protocol : ssl_protocol)
    (kwargs : keywords) : keywords :=
  mk_keywords (kw_pkcs12_data kwargs) (kw_pkcs12_filename kwargs)
    (kw_pkcs12_password kwargs)
    (Some match kw_ssl_protocol kwargs with
          | Some p => p
          | None => default_ssl_protocol
          end) ∅.

(** Whatever the world, [m] leaves it related by [R] to what it was. *)
Definition maintains {A} (R : world -> world -> Prop) (m : M A) : Prop :=
  forall w, R w (snd (m w)).

(** The file [k] is the same in both worlds. *)
Definition same_file (k : string) (w w' : world) : Prop :=
  fs w' !! k = fs w !! k.

(** The context object [l] is the same in both worlds. *)
Definition same_context (l : loc) (w w' : world) : Prop :=
  heap w' l = heap w l.

(** A code point of a lone surrogate. *)
Definition is_surrogate (cp : N) : bool :=
  ((55296 <=? cp) && (cp <=? 57343))%N.

(** The year is not negative and the fields that [strftime] prints with
    two digits have no more than two: true of every [datetime] object. *)
Definition printable (d : datetime) : Prop :=
  (0 <= year d /\ 0 <= month d < 100 /\ 0 <= day d < 100 /\
   0 <= hour d < 100 /\ 0 <= minute d < 100 /\ 0 <= second d < 100)%Z.

(** The number of digits of a year between 0 and 9999. *)
Definition year_digits (n : nat) : nat :=
  if (n <? 10)%nat then 1
  else if (n <? 100)%nat then 2 else if (n <? 1000)%nat then 3 else 4.

Definition year_length_ok (n : nat) : bool :=
  Nat.eqb (String.length (decimal (Z.of_nat n))) (year_digits n).

(** The TLS library leaves the files on disk as they are. *)
Definition tls_keeps_files {tls : TlsLibrary} : Prop :=
  forall files ctx path password,
    snd (fst (tls_load_cert_chain files ctx path password)) = files.

(** The PEM sequence of a key block, a leaf and a chain. *)
Definition pem_sequence {crypto : Cryptography} (pk_buf : bytes)
    (leaf : certificate) (chain : list certificate) : bytes :=
  (pk_buf ++ public_bytes leaf ++ concat (map public_bytes chain))%list.

(** Pool managers that do nothing. *)
Definition sample_pools : @PoolManagers sample_http := {|
  proxy_manager := unit;
  HTTPAdapter_init_poolmanager := fun _ _ _ => ret tt;
  HTTPAdapter_proxy_manager_for := fun _ _ _ => ret tt
|}.

Definition data_and_cert_keywords : keywords :=
  mk_keywords (Some [Byte.x01]) None PyNone None {[ "cert" := PyStr [] ]}.

Definition data_keywords : keywords :=
  mk_keywords (Some [Byte.x01]) None PyNone None ∅.

(** * Properties *)

(** ** Generic facts about the combinators *)

Lemma bind_ok {A B} (m : M A) (k : A -> M B) w a w1 :
  m w = (Ok a, w1) -> bind m k w = k a w1.
Proof. unfold bind. intros ->. reflexivity. Qed.

Lemma bind_raise {A B} (m : M A) (k : A -> M B) w e w1 :
  m w = (Raise e, w1) -> bind m k w = (Raise e, w1).
Proof. unfold bind. intros ->. reflexivity. Qed.

Lemma try_finally_world {A} (body : M A) (fin : M unit) w :
  snd (try_finally body fin w) = snd (fin (snd (body w))).
Proof.
  unfold try_finally.
  destruct (body w) as [[a|e] w1]; simpl;
    destruct (fin w1) as [[[]|e'] w2]; reflexivity.
Qed.

Lemma try_finally_fin_ok {A} (body : M A) (fin : M unit) w r w1 w2 :
  body w = (r, w1) -> fin w1 = (Ok tt, w2) ->
  try_finally body fin w = (r, w2).
Proof.
  unfold try_finally. intros -> Hfin.
  destruct r; rewrite Hfin; reflexivity.
Qed.

Lemma try_finally_fin_raise {A} (body : M A) (fin : M unit) w r w1 w2 e' :
  body w = (r, w1) -> fin w1 = (Raise e', w2) ->
  try_finally body fin w =
    (Raise (match r with Ok _ => e' | Raise e => with_context e' e end), w2).
Proof.
  unfold try_finally. intros -> Hfin.
  destruct r; rewrite Hfin; reflexivity.
Qed.

(** ** Dates *)

Lemma datetime_ltb_lt (a b : datetime) :
  datetime_ltb a b = true <-> datetime_lt a b.
Proof.
  destruct a as [y1 mo1 d1 h1 mi1 s1 u1], b as [y2 mo2 d2 h2 mi2 s2 u2].
  unfold datetime_ltb, datetime_lt, datetime_fields. simpl.
  repeat match goal with
  | |- context [(?x ?= ?y)%Z] =>
      let E := fresh "E" in
      destruct (Z.compare_spec x y) as [E|E|E]
  end; split; intros Hyp; try discriminate; try reflexivity; try lia.
Qed.

Lemma datetime_ltb_irrefl (a : datetime) : datetime_ltb a a = false.
Proof.
  destruct (datetime_ltb a a) eqn:E; [|reflexivity].
  apply datetime_ltb_lt in E. unfold datetime_lt in E. lia.
Qed.

Lemma strftime_second_precision (us : Z) (d : datetime) :
  strftime (with_microsecond us d) = strftime d.
Proof. reflexivity. Qed.

Lemma string_length_append (s t : string) :
  String.length (s ++ t) = String.length s + String.length t.
Proof. induction s as [|c s IH]; simpl; [|rewrite IH]; reflexivity. Qed.

Lemma append_inj_length (s1 s2 t1 t2 : string) :
  String.length s1 = String.length s2 ->
  s1 ++ t1 = s2 ++ t2 -> s1 = s2 /\ t1 = t2.
Proof.
  revert s2. induction s1 as [|c s1 IH]; intros [|c2 s2] Hlen E;
    simpl in *; try discriminate.
  - split; [reflexivity|exact E].
  - injection E as -> E. injection Hlen as Hlen.
    destruct (IH s2 Hlen E) as [-> ->]. split; reflexivity.
Qed.

Lemma decimal_inj (n m : Z) :
  (0 <= n)%Z -> (0 <= m)%Z -> decimal n = decimal m -> n = m.
Proof.
  intros Hn Hm E. unfold decimal in E.
  assert (Hnonnil : forall x, N.to_uint x <> Decimal.Nil).
  { intros [|q]; [discriminate|].
    apply DecimalPos.Unsigned.to_uint_nonnil. }
  apply (f_equal NilZero.uint_of_string) in E.
  rewrite !NilZero.usu in E by apply Hnonnil.
  injection E as E. apply DecimalN.Unsigned.to_uint_inj in E. lia.
Qed.

Lemma digit_inj (n m : Z) : digit n = digit m -> (n mod 10 = m mod 10)%Z.
Proof.
  unfold digit. intros E.
  apply (f_equal N_of_ascii) in E.
  pose proof (Z.mod_pos_bound n 10 ltac:(lia)) as Hn.
  pose proof (Z.mod_pos_bound m 10 ltac:(lia)) as Hm.
  rewrite !N_ascii_embedding in E by lia.
  lia.
Qed.

Lemma strftime_length (d : datetime) :
  String.length (strftime d) = String.length (decimal (year d)) + 16.
Proof. unfold strftime. rewrite string_length_append. reflexivity. Qed.

(** The text determines the datetime to the second. *)
Lemma strftime_inj (a b : datetime) :
  printable a -> printable b ->
  strftime a = strftime b -> with_microsecond 0 a = with_microsecond 0 b.
Proof.
  intros (Hy & Hmo & Hd & Hh & Hmi & Hs) (Hy' & Hmo' & Hd' & Hh' & Hmi' & Hs')
    E.
  assert (Hlen : String.length (decimal (year a)) =
                 String.length (decimal (year b))).
  { apply (f_equal String.length) in E. rewrite !strftime_length in E. lia. }
  unfold strftime in E.
  destruct (append_inj_length _ _ _ _ Hlen E) as [Ey Erest].
  apply decimal_inj in Ey; [|assumption|assumption].
  destruct a as [y1 mo1 d1 h1 mi1 s1 u1], b as [y2 mo2 d2 h2 mi2 s2 u2].
  simpl in *. unfold with_microsecond. simpl.
  injection Erest as Emo1 Emo2 Ed1 Ed2 Eh1 Eh2 Emi1 Emi2 Es1 Es2.
  apply digit_inj in Emo1, Emo2, Ed1, Ed2, Eh1, Eh2, Emi1, Emi2, Es1, Es2.
  f_equal; [exact Ey|..]; Z.to_euclidean_division_equations; lia.
Qed.

Lemma strftime_same_second (a b : datetime) :
  with_microsecond 0 a = with_microsecond 0 b -> strftime a = strftime b.
Proof.
  intros E. rewrite <- (strftime_second_precision 0 a),
    <- (strftime_second_precision 0 b), E. reflexivity.
Qed.

Section Validator.
Context {clock : Clock} {crypto : Cryptography}.

(** C5.  [check_cert_not_after] raises the expired-certificate [ValueError]
    exactly when the certificate's not-valid-after time is strictly earlier
    than the time read from the clock, and returns normally otherwise; the
    clock read is its only effect on the world.  The message of the error
    carries the not-valid-after time formatted as year, month, day, hour,
    minute and second: the text after the fixed prefix is the same for two
    datetimes exactly when they agree to the second, so it gives the expiry
    time to the second and nothing of the microseconds. *)
Theorem check_cert_not_after_correct (cert : certificate) (w : world) :
  let cert_not_after := not_valid_after cert in
  let now := clock_at (clock_reads w) in
  check_cert_not_after (Some cert) w =
    (if datetime_ltb cert_not_after now
     then Raise (Exn ValueError
                   ("Client certificate expired: Not After: " ++
                    strftime cert_not_after) None)
     else Ok tt,
     tick w)
  /\ (datetime_ltb cert_not_after now = true <-> datetime_lt cert_not_after now)
  /\ (datetime_ltb cert_not_after now = false <->
      ~ datetime_lt cert_not_after now)
  /\ strftime cert_not_after =
       decimal (year cert_not_after) ++ "-" ++
       pad2 (month cert_not_after) ++ "-" ++ pad2 (day cert_not_after) ++
       " " ++ pad2 (hour cert_not_after) ++ ":" ++
       pad2 (minute cert_not_after) ++ ":" ++ pad2 (second cert_not_after) ++
       "Z"
  /\ (forall other,
        printable cert_not_after -> printable other ->
        (strftime other = strftime cert_not_after <->
         with_microsecond 0 other = with_microsecond 0 cert_not_after))
  /\ (forall us, strftime (with_microsecond us cert_not_after) =
                 strftime cert_not_after)
  /\ fs (tick w) = fs w /\ io_log (tick w) = io_log w
  /\ heap (tick w) = heap w /\ open_files (tick w) = open_files w.
Proof.
  intros cert_not_after now.
  split; [|split; [|split; [|split; [|split; [|repeat split]]]]].
  - unfold check_cert_not_after, bind, utcnow, raise, ret. simpl.
    fold cert_not_after now. destruct (datetime_ltb cert_not_after now); reflexivity.
  - apply datetime_ltb_lt.
  - split.
    + intros E L. apply datetime_ltb_lt in L. congruence.
    + intros N. destruct (datetime_ltb cert_not_after now) eqn:E; [|reflexivity].
      exfalso. apply N, datetime_ltb_lt, E.
  - reflexivity.
  - intros other Hc Ho. split.
    + apply strftime_inj; assumption.
    + apply strftime_same_second.
Qed.

End Validator.

(** ** The adapter *)

Lemma update_heap_same (l : loc) (c : ssl_context) (h : loc -> ssl_context) :
  update_heap l c h l = c.
Proof. unfold update_heap. rewrite decide_True; reflexivity. Qed.

Lemma check_hostname_assign (b : bool) (c : ssl_context) :
  check_hostname (assign_check_hostname b c) = b.
Proof. reflexivity. Qed.

Lemma check_hostname_after_set (ctx : loc) (b : bool) (w : world) :
  check_hostname (heap (snd (set_check_hostname ctx b w)) ctx) = b.
Proof. simpl. rewrite update_heap_same. reflexivity. Qed.

Lemma is_False_spec (v : pyval) : is_False v = true <-> v = PyBool false.
Proof.
  split; [|intros ->; reflexivity].
  destruct v as [|[]| | | |]; simpl; intros E; try discriminate; reflexivity.
Qed.

Section AdapterProperties.
Context {clock : Clock} {crypto : Cryptography} {tls : TlsLibrary}
  {http : HttpClient}.

Lemma guard_shape {A} (ctx : loc) (verify : pyval) (op : M A) (w : world) :
  (do check_hostname <- get_check_hostname ctx;
   try_finally
     ((if is_False verify then set_check_hostname ctx false else ret tt) ;; op)
     (set_check_hostname ctx check_hostname)) w =
  (fst (op (if is_False verify
            then snd (set_check_hostname ctx false w) else w)),
   snd (set_check_hostname ctx (check_hostname (heap w ctx))
          (snd (op (if is_False verify
                    then snd (set_check_hostname ctx false w) else w))))).
Proof.
  unfold bind, try_finally, get_check_hostname.
  destruct (is_False verify); simpl;
    match goal with |- context [op ?x] => destruct (op x) as [[a|e] w1] end;
    reflexivity.
Qed.

(** C1.  Around [cert_verify] and around [send], whether the wrapped
    operation returns or raises, the context's [check_hostname] after the
    call is the value it had immediately before the call.  The wrapped
    operation starts with the flag disabled when [verify is False] and with
    the flag as it was otherwise, and the saved value is assigned back after
    it on both outcomes. *)
Theorem check_hostname_restored (self : Pkcs12Adapter) (conn : connection)
    (url : string) (request : prepared_request)
    (stream timeout verify cert proxies : pyval) (w : world) :
  let ctx := adapter_ssl_context self in
  let before := check_hostname (heap w ctx) in
  let during :=
    if is_False verify then snd (set_check_hostname ctx false w) else w in
  let wrapped_verify :=
    HTTPAdapter_cert_verify (adapter_base self) conn url verify cert during in
  let wrapped_send :=
    HTTPAdapter_send (adapter_base self) request stream timeout verify cert
      proxies during in
  check_hostname (heap (snd (cert_verify self conn url verify cert w)) ctx)
    = before
  /\ check_hostname
       (heap (snd (send self request stream timeout verify cert proxies w)) ctx)
     = before
  /\ check_hostname (heap during ctx) = (if is_False verify then false else before)
  /\ cert_verify self conn url verify cert w =
       (fst wrapped_verify, snd (set_check_hostname ctx before (snd wrapped_verify)))
  /\ send self request stream timeout verify cert proxies w =
       (fst wrapped_send, snd (set_check_hostname ctx before (snd wrapped_send))).
Proof.
  intros ctx before during wrapped_verify wrapped_send.
  assert (Hv : cert_verify self conn url verify cert w =
       (fst wrapped_verify, snd (set_check_hostname ctx before (snd wrapped_verify))))
    by apply guard_shape.
  assert (Hs : send self request stream timeout verify cert proxies w =
       (fst wrapped_send, snd (set_check_hostname ctx before (snd wrapped_send))))
    by apply guard_shape.
  repeat split; try assumption.
  - rewrite Hv. apply check_hostname_after_set.
  - rewrite Hs. apply check_hostname_after_set.
  - unfold during. destruct (is_False verify); [|reflexivity].
    apply check_hostname_after_set.
Qed.

(** C9.  The flag is disabled exactly when [verify] is the object [False].
    For every other value of [verify] the wrapped operation of
    [cert_verify] and of [send] starts in the very world the call started
    in, and the only assignment to the flag is the one that puts the saved
    value back afterwards. *)
Theorem check_hostname_untouched_unless_False (self : Pkcs12Adapter)
    (conn : connection) (url : string) (request : prepared_request)
    (stream timeout verify cert proxies : pyval) (w : world) :
  verify <> PyBool false ->
  let ctx := adapter_ssl_context self in
  let before := check_hostname (heap w ctx) in
  let wrapped_verify :=
    HTTPAdapter_cert_verify (adapter_base self) conn url verify cert w in
  let wrapped_send :=
    HTTPAdapter_send (adapter_base self) request stream timeout verify cert
      proxies w in
  is_False verify = false
  /\ cert_verify self conn url verify cert w =
       (fst wrapped_verify, snd (set_check_hostname ctx before (snd wrapped_verify)))
  /\ send self request stream timeout verify cert proxies w =
       (fst wrapped_send, snd (set_check_hostname ctx before (snd wrapped_send))).
Proof.
  intros Hne ctx before wrapped_verify wrapped_send.
  assert (E : is_False verify = false).
  { destruct (is_False verify) eqn:E; [|reflexivity].
    apply is_False_spec in E. contradiction. }
  split; [exact E|].
  unfold wrapped_verify, wrapped_send, before, ctx.
  split.
  - unfold cert_verify. rewrite guard_shape, E. reflexivity.
  - unfold send. rewrite guard_shape, E. reflexivity.
Qed.

End AdapterProperties.

Section Construction.
Context {clock : Clock} {crypto : Cryptography} {tls : TlsLibrary}
  {http : HttpClient}.
Variable default_ssl_protocol : ssl_protocol.

Lemma password_bytes_invalid (v : pyval) :
  valid_password_type v = false -> password_bytes v = Raise password_type_error.
Proof. destruct v; simpl; intros E; try discriminate; reflexivity. Qed.

(** C6, as the code has it.  With both sources, or with neither, the
    constructor raises the corresponding [ValueError] at once: nothing is
    read and nothing is decoded.  With a password that is neither [None],
    bytes nor a string no adapter is ever returned; the error is the
    password [TypeError] when exactly one source is given and, for a file
    name, the file can be read. *)
Theorem Pkcs12Adapter_init_configuration_errors (args : list pyval)
    (kwargs : keywords) (w : world) :
  let init := Pkcs12Adapter_init default_ssl_protocol args kwargs in
  (forall data filename,
      kw_pkcs12_data kwargs = Some data ->
      kw_pkcs12_filename kwargs = Some filename ->
      init w = (Raise conflicting_source_error, w))
  /\ (kw_pkcs12_data kwargs = None -> kw_pkcs12_filename kwargs = None ->
      init w = (Raise missing_source_error, w))
  /\ (valid_password_type (kw_pkcs12_password kwargs) = false ->
      (exists e, fst (init w) = Raise e)
      /\ (forall data,
            kw_pkcs12_data kwargs = Some data ->
            kw_pkcs12_filename kwargs = None ->
            init w = (Raise password_type_error, w))
      /\ (forall filename data,
            kw_pkcs12_data kwargs = None ->
            kw_pkcs12_filename kwargs = Some filename ->
            fs w !! filename = Some data ->
            init w = (Raise password_type_error, add_event (EvRead filename) w))).
Proof.
  intros init. unfold init, Pkcs12Adapter_init.
  destruct kwargs as [data filename password proto rest]. simpl.
  split; [|split].
  - intros d f -> ->. reflexivity.
  - intros -> ->. reflexivity.
  - intros Hpw. apply password_bytes_invalid in Hpw.
    split; [|split].
    + destruct data as [d|], filename as [f|]; unfold bind, raise, ret, lift;
        simpl; rewrite ?Hpw; eauto.
      unfold read_file. destruct (fs w !! f); simpl; rewrite ?Hpw; eauto.
    + intros d -> ->. unfold bind, ret, lift. rewrite Hpw. reflexivity.
    + intros f d -> -> Hf. unfold bind, read_file, lift. rewrite Hf, Hpw.
      reflexivity.
Qed.

(** C10, as the code has it.  The wrapper hands the call to the plain
    client exactly when the three [pkcs12_*] arguments are all absent.  A
    call with a password but without data and without file name never
    reaches the plain client: with a [cert] argument it raises the
    cert-conflict [ValueError]; without one it opens a session, the adapter
    constructor raises the missing-source [ValueError], and the session is
    closed. *)
Theorem request_password_only (args : list pyval) (kwargs : keywords)
    (w : world) :
  kw_pkcs12_data kwargs = None ->
  kw_pkcs12_filename kwargs = None ->
  (kw_pkcs12_password kwargs = PyNone ->
   request default_ssl_protocol args kwargs w =
     requests_request args (kw_rest kwargs) w)
  /\ (kw_pkcs12_password kwargs <> PyNone ->
      ("cert" ∈ dom (kw_rest kwargs) ->
       request default_ssl_protocol args kwargs w =
         (Raise cert_conflict_error, w))
      /\ ("cert" ∉ dom (kw_rest kwargs) ->
          request default_ssl_protocol args kwargs w =
            (do session <- Session;
             try_finally (raise missing_source_error) (Session_close session)) w)
      /\ ("cert" ∉ dom (kw_rest kwargs) ->
          forall s w1 w2,
            Session w = (Ok s, w1) -> Session_close s w1 = (Ok tt, w2) ->
            request default_ssl_protocol args kwargs w =
              (Raise missing_source_error, w2))).
Proof.
  intros Hd Hf. unfold request. rewrite Hd, Hf.
  split.
  - intros ->. reflexivity.
  - intros Hpw.
    assert (E : is_None (kw_pkcs12_password kwargs) = false).
    { destruct (kw_pkcs12_password kwargs); try reflexivity. contradiction. }
    rewrite E.
    assert (Hshape : "cert" ∉ dom (kw_rest kwargs) ->
      (if decide ("cert" ∈ dom (kw_rest kwargs))
       then raise cert_conflict_error
       else
         do session <- Session;
         try_finally
           (do pkcs12_adapter <-
              Pkcs12Adapter_init default_ssl_protocol []
                (mk_keywords None None (kw_pkcs12_password kwargs)
                   (Some match kw_ssl_protocol kwargs with
                         | Some p => p
                         | None => default_ssl_protocol
                         end) ∅);
            Session_mount session "https://"
              (adapter_ssl_context pkcs12_adapter)
              (adapter_base pkcs12_adapter) ;;
            Session_request session args (kw_rest kwargs))
           (Session_close session)) w =
      (do session <- Session;
       try_finally (raise missing_source_error) (Session_close session)) w).
    { intros Hc. rewrite decide_False by exact Hc.
      unfold bind at 1 4. destruct (Session w) as [[s|e] w1]; reflexivity. }
    split; [|split].
    + intros Hc. rewrite decide_True by exact Hc. reflexivity.
    + exact Hshape.
    + intros Hc s w1 w2 Hs Hclose. rewrite (Hshape Hc).
      unfold bind. rewrite Hs. unfold try_finally, raise. rewrite Hclose.
      reflexivity.
Qed.

End Construction.

(** ** Files *)

Open Scope list_scope.

Arguments tmp_name : simpl never.

Lemma tmp_name_fresh (w : world) : fs w !! tmp_name w = None.
Proof. apply not_elem_of_dom. unfold tmp_name. apply is_fresh. Qed.

Lemma os_remove_absent (path : string) (w : world) :
  fs (snd (os_remove path w)) !! path = None.
Proof.
  unfold os_remove. destruct (fs w !! path) eqn:E; simpl.
  - apply lookup_delete_eq.
  - exact E.
Qed.

Lemma c_close_fs (c : string) (w : world) : fs (snd (c_close c w)) = fs w.
Proof. unfold c_close. destruct (decide (c ∈ open_files w)); reflexivity. Qed.

Lemma c_write_fs (c : string) (buf : bytes) (w : world) :
  fs (snd (c_write c buf w)) = alter (fun old => old ++ buf) c (fs w).
Proof. reflexivity. Qed.

Lemma c_close_ok (c : string) (w : world) :
  c_close c w = (Ok tt, snd (c_close c w)).
Proof. unfold c_close. destruct (decide (c ∈ open_files w)); reflexivity. Qed.

Lemma try_finally_ext {A} (body body' : M A) (fin : M unit) w w' :
  body w = body' w' -> try_finally body fin w = try_finally body' fin w'.
Proof. unfold try_finally. intros ->. reflexivity. Qed.

Lemma bind_ret_world {A B} (m : M A) (b : B) w :
  snd ((m ;; ret b) w) = snd (m w).
Proof. unfold bind, ret. destruct (m w) as [[a|e] w1]; reflexivity. Qed.

Section Materializer.
Context {clock : Clock} {crypto : Cryptography} {tls : TlsLibrary}.

(** *** The loop over the chain *)

Lemma after_chain_clock (c : string) (l : list certificate) (w : world) :
  clock_reads (after_chain c l w) = clock_reads w + length l.
Proof.
  revert w. induction l as [|x l IH]; intros w; simpl.
  - lia.
  - rewrite IH. simpl. lia.
Qed.

Lemma after_chain_log (c : string) (l : list certificate) (w : world) :
  io_log (after_chain c l w) = (io_log w ++ chain_writes c l)%list.
Proof.
  revert w. induction l as [|x l IH]; intros w; simpl.
  - rewrite app_nil_r. reflexivity.
  - rewrite IH. simpl. rewrite <- app_assoc. reflexivity.
Qed.

Lemma after_chain_open (c : string) (l : list certificate) (w : world) :
  open_files (after_chain c l w) = open_files w.
Proof. revert w. induction l as [|x l IH]; intros w; simpl; [|rewrite IH]; reflexivity. Qed.

Lemma after_chain_heap (c : string) (l : list certificate) (w : world) :
  heap (after_chain c l w) = heap w.
Proof. revert w. induction l as [|x l IH]; intros w; simpl; [|rewrite IH]; reflexivity. Qed.

Lemma after_chain_next_loc (c : string) (l : list certificate) (w : world) :
  next_loc (after_chain c l w) = next_loc w.
Proof. revert w. induction l as [|x l IH]; intros w; simpl; [|rewrite IH]; reflexivity. Qed.

Lemma after_chain_file (c : string) (l : list certificate) (w : world) :
  fs (after_chain c l w) !! c =
    (fun old => old ++ concat (map public_bytes l))%list <$> fs w !! c.
Proof.
  revert w. induction l as [|x l IH]; intros w; simpl.
  - destruct (fs w !! c); simpl; [rewrite app_nil_r|]; reflexivity.
  - rewrite IH. simpl. rewrite lookup_alter_eq.
    destruct (fs w !! c); simpl; [rewrite <- app_assoc|]; reflexivity.
Qed.

Lemma after_chain_other_files (c k : string) (l : list certificate) (w : world) :
  k <> c -> fs (after_chain c l w) !! k = fs w !! k.
Proof.
  intros Hk. revert w. induction l as [|x l IH]; intros w; simpl.
  - reflexivity.
  - rewrite IH. simpl. apply lookup_alter_ne. congruence.
Qed.

Lemma after_chain_app (c : string) (l1 l2 : list certificate) (w : world) :
  after_chain c (l1 ++ l2) w = after_chain c l2 (after_chain c l1 w).
Proof. revert w. induction l1 as [|x l1 IH]; intros w; simpl; [|rewrite IH]; reflexivity. Qed.

Lemma chain_step_ok (c : string) (x : certificate) (w : world) :
  expired_at (clock_reads w) x = false ->
  chain_step c x w = (Ok tt, snd (c_write c (public_bytes x) (tick w))).
Proof.
  intros E. unfold chain_step, check_cert_not_after, bind, utcnow. simpl.
  unfold expired_at in E. rewrite E. reflexivity.
Qed.

Lemma chain_step_expired (c : string) (x : certificate) (w : world) :
  expired_at (clock_reads w) x = true ->
  chain_step c x w =
    (Raise (Exn ValueError (expired_message (not_valid_after x)) None), tick w).
Proof.
  intros E. unfold chain_step, check_cert_not_after, bind, utcnow. simpl.
  unfold expired_at in E. rewrite E. reflexivity.
Qed.

Lemma chain_loop_ok (c : string) (l : list certificate) (w : world) :
  (forall i x, l !! i = Some x -> expired_at (clock_reads w + i) x = false) ->
  for_each l (chain_step c) w = (Ok tt, after_chain c l w).
Proof.
  revert w. induction l as [|x l IH]; intros w Hl; simpl.
  - reflexivity.
  - unfold bind. rewrite chain_step_ok.
    + apply IH. intros i y Hy. specialize (Hl (S i) y Hy). simpl.
      replace (S (clock_reads w + i)) with (clock_reads w + S i) by lia.
      exact Hl.
    + specialize (Hl 0 x eq_refl). rewrite Nat.add_0_r in Hl. exact Hl.
Qed.

Lemma chain_loop_expired (c : string) (pre post : list certificate)
    (bad : certificate) (w : world) :
  (forall i x, pre !! i = Some x -> expired_at (clock_reads w + i) x = false) ->
  expired_at (clock_reads w + length pre) bad = true ->
  for_each (pre ++ bad :: post) (chain_step c) w =
    (Raise (Exn ValueError (expired_message (not_valid_after bad)) None),
     tick (after_chain c pre w)).
Proof.
  revert w. induction pre as [|x pre IH]; intros w Hpre Hbad; simpl.
  - unfold bind. rewrite chain_step_expired; [reflexivity|].
    simpl in Hbad. rewrite Nat.add_0_r in Hbad. exact Hbad.
  - unfold bind. rewrite chain_step_ok.
    + apply IH.
      * intros i y Hy. specialize (Hpre (S i) y Hy). simpl.
        replace (S (clock_reads w + i)) with (clock_reads w + S i) by lia.
        exact Hpre.
      * simpl. simpl in Hbad.
        replace (S (clock_reads w + length pre))
          with (clock_reads w + S (length pre)) by lia.
        exact Hbad.
    + specialize (Hpre 0 x eq_refl). rewrite Nat.add_0_r in Hpre. exact Hpre.
Qed.

End Materializer.

Section CreateSslContextProperties.
Context {clock : Clock} {crypto : Cryptography} {tls : TlsLibrary}.

(** *** The paths through [create_sslcontext] *)

Lemma create_decode_raise data pw proto w e :
  load_key_and_certificates data pw = Raise e ->
  create_sslcontext data pw proto w = (Raise e, w).
Proof.
  intros E. unfold create_sslcontext, bind, lift. rewrite E. reflexivity.
Qed.

Lemma create_no_certificate data pw proto w key chain :
  load_key_and_certificates data pw = Ok (key, None, chain) ->
  create_sslcontext data pw proto w =
    (Raise (Exn AttributeError
              "'NoneType' object has no attribute 'not_valid_after'" None), w).
Proof.
  intros E. unfold create_sslcontext, bind, lift. rewrite E. reflexivity.
Qed.

Lemma create_leaf_expired data pw proto w key leaf chain :
  load_key_and_certificates data pw = Ok (key, Some leaf, chain) ->
  expired_at (clock_reads w) leaf = true ->
  create_sslcontext data pw proto w =
    (Raise (Exn ValueError (expired_message (not_valid_after leaf)) None),
     tick w).
Proof.
  intros E X. unfold create_sslcontext, bind, lift. rewrite E.
  unfold check_cert_not_after, bind, utcnow. unfold expired_at in X.
  rewrite X. reflexivity.
Qed.

Lemma create_prologue data pw proto w key leaf chain :
  load_key_and_certificates data pw = Ok (key, Some leaf, chain) ->
  expired_at (clock_reads w) leaf = false ->
  create_sslcontext data pw proto w =
    (try_finally
       (try_finally
          (materialize_and_load (next_loc w) (tmp_name w) key (Some leaf)
             chain pw)
          (os_remove (tmp_name w)))
       (c_close (tmp_name w)) ;;
     ret (next_loc w)) (world_at_try proto w).
Proof.
  intros E X. unfold create_sslcontext, bind, lift. rewrite E.
  unfold check_cert_not_after, bind, utcnow. unfold expired_at in X.
  rewrite X. reflexivity.
Qed.

Lemma world_at_try_fs proto w :
  fs (world_at_try proto w) = <[tmp_name w := []]> (fs w).
Proof. reflexivity. Qed.

Lemma world_at_try_file proto w :
  fs (world_at_try proto w) !! tmp_name w = Some [].
Proof. rewrite world_at_try_fs. apply lookup_insert_eq. Qed.

Lemma world_at_try_log proto w :
  io_log (world_at_try proto w) = (io_log w ++ [EvCreate (tmp_name w)])%list.
Proof. reflexivity. Qed.

Lemma world_at_try_open proto w :
  tmp_name w ∈ open_files (world_at_try proto w).
Proof. simpl. set_solver. Qed.

Lemma world_at_try_clock proto w :
  clock_reads (world_at_try proto w) = S (clock_reads w).
Proof. reflexivity. Qed.

(** *** The [try] suite *)

Lemma materialize_serialize_raise ctx c key cert chain pw w1 e :
  serialize_private_key key pw = Raise e ->
  materialize_and_load ctx c key cert chain pw w1 = (Raise e, w1).
Proof.
  intros E. unfold materialize_and_load, bind, lift. rewrite E. reflexivity.
Qed.

Lemma materialize_reaches_load ctx c key leaf chain pw w1 pk_buf :
  serialize_private_key key pw = Ok pk_buf ->
  (forall i x, chain !! i = Some x ->
               expired_at (clock_reads w1 + i) x = false) ->
  materialize_and_load ctx c key (Some leaf) chain pw w1 =
    load_cert_chain ctx c pw (world_at_load c pk_buf leaf chain w1).
Proof.
  intros E Hchain. unfold materialize_and_load, world_at_load.
  unfold bind at 1. unfold lift at 1. rewrite E.
  unfold bind at 1. unfold c_write at 1.
  unfold bind at 1. unfold lift at 1. simpl cert_public_bytes. cbv iota beta.
  unfold bind at 1. unfold c_write at 1.
  set (w2 := add_event (EvWrite c (public_bytes leaf)) _).
  assert (Hloop :
    (match chain with
     | [] => ret tt
     | _ :: _ => for_each chain (chain_step c)
     end) w2 = (Ok tt, after_chain c chain w2)).
  { destruct chain as [|x l]; [reflexivity|].
    apply chain_loop_ok. exact Hchain. }
  unfold bind at 1. rewrite Hloop.
  unfold bind at 1. unfold c_flush at 1.
  unfold bind at 1. rewrite c_close_ok. reflexivity.
Qed.

Lemma materialize_chain_expired ctx c key leaf pre bad post pw w1 pk_buf :
  serialize_private_key key pw = Ok pk_buf ->
  (forall i x, pre !! i = Some x ->
               expired_at (clock_reads w1 + i) x = false) ->
  expired_at (clock_reads w1 + length pre) bad = true ->
  materialize_and_load ctx c key (Some leaf) (pre ++ bad :: post) pw w1 =
    (Raise (Exn ValueError (expired_message (not_valid_after bad)) None),
     tick (after_chain c pre
             (snd (c_write c (public_bytes leaf) (snd (c_write c pk_buf w1)))))).
Proof.
  intros E Hpre Hbad. unfold materialize_and_load.
  unfold bind at 1. unfold lift at 1. rewrite E.
  unfold bind at 1. unfold c_write at 1.
  unfold bind at 1. unfold lift at 1. simpl cert_public_bytes. cbv iota beta.
  unfold bind at 1. unfold c_write at 1.
  set (w2 := add_event (EvWrite c (public_bytes leaf)) _).
  assert (Hloop :
    (match pre ++ bad :: post with
     | [] => ret tt
     | _ :: _ => for_each (pre ++ bad :: post) (chain_step c)
     end) w2 =
    (Raise (Exn ValueError (expired_message (not_valid_after bad)) None),
     tick (after_chain c pre w2))).
  { destruct (pre ++ bad :: post) as [|x l] eqn:El.
    - destruct pre; discriminate.
    - rewrite <- El. apply chain_loop_expired; assumption. }
  unfold bind at 1. rewrite Hloop. reflexivity.
Qed.

End CreateSslContextProperties.

(** ** The log only grows *)

Lemma log_extends_refl P w : log_extends P w w.
Proof. exists []. rewrite app_nil_r. split; [reflexivity|constructor]. Qed.

Lemma log_extends_trans P w1 w2 w3 :
  log_extends P w1 w2 -> log_extends P w2 w3 -> log_extends P w1 w3.
Proof.
  intros (l1 & E1 & F1) (l2 & E2 & F2). exists (l1 ++ l2). split.
  - rewrite E2, E1, app_assoc. reflexivity.
  - apply Forall_app. split; assumption.
Qed.

Lemma log_extends_weaken (P Q : io_event -> Prop) w w' :
  (forall ev, P ev -> Q ev) -> log_extends P w w' -> log_extends Q w w'.
Proof.
  intros HPQ (l & E & F). exists l. split; [exact E|].
  eapply Forall_impl; [exact F|exact HPQ].
Qed.

Lemma log_extends_same P w w' : io_log w' = io_log w -> log_extends P w w'.
Proof. intros E. exists []. rewrite app_nil_r. split; [exact E|constructor]. Qed.

Lemma log_extends_event (P : io_event -> Prop) ev w :
  P ev -> log_extends P w (add_event ev w).
Proof. intros Hev. exists [ev]. split; [reflexivity|]. repeat constructor. exact Hev. Qed.

Lemma appends_ret {A} P (a : A) : appends P (ret a).
Proof. intros w. apply log_extends_refl. Qed.

Lemma appends_raise {A} P e : appends P (raise (A := A) e).
Proof. intros w. apply log_extends_refl. Qed.

Lemma appends_lift {A} P (r : result A) : appends P (lift r).
Proof. intros w. apply log_extends_refl. Qed.

Lemma appends_bind {A B} P (m : M A) (k : A -> M B) :
  appends P m -> (forall a, appends P (k a)) -> appends P (bind m k).
Proof.
  intros Hm Hk w. unfold bind. specialize (Hm w).
  destruct (m w) as [[a|e] w1]; simpl in *.
  - eapply log_extends_trans; [exact Hm|apply Hk].
  - exact Hm.
Qed.

Lemma appends_try_finally {A} P (body : M A) (fin : M unit) :
  appends P body -> appends P fin -> appends P (try_finally body fin).
Proof.
  intros Hb Hf w. rewrite try_finally_world.
  eapply log_extends_trans; [apply Hb|apply Hf].
Qed.

Lemma appends_for_each {A} P (l : list A) (body : A -> M unit) :
  (forall x, appends P (body x)) -> appends P (for_each l body).
Proof.
  intros Hb. induction l as [|x l IH]; simpl.
  - apply appends_ret.
  - apply appends_bind; [apply Hb|intros _; exact IH].
Qed.

Lemma appends_c_write c buf : appends creates_nothing (c_write c buf).
Proof. intros w. apply (log_extends_event _ _ (set_fs _ w)). intros p. discriminate. Qed.

Lemma appends_c_flush c : appends creates_nothing (c_flush c).
Proof. intros w. apply log_extends_event. intros p. discriminate. Qed.

Lemma appends_c_close c : appends creates_nothing (c_close c).
Proof.
  intros w. unfold c_close. destruct (decide (c ∈ open_files w)); simpl.
  - apply (log_extends_event _ _ (set_open_files _ w)). intros p. discriminate.
  - apply log_extends_refl.
Qed.

Lemma appends_os_remove path : appends creates_nothing (os_remove path).
Proof.
  intros w. unfold os_remove. destruct (fs w !! path); simpl.
  - apply (log_extends_event _ _ (set_fs _ w)). intros p. discriminate.
  - apply log_extends_refl.
Qed.

Section LogOfTheMaterializer.
Context {clock : Clock} {crypto : Cryptography} {tls : TlsLibrary}.

Lemma appends_check_cert_not_after cert :
  appends creates_nothing (check_cert_not_after cert).
Proof.
  intros w. apply log_extends_same. unfold check_cert_not_after.
  destruct cert as [c|]; [|reflexivity].
  unfold bind, utcnow. destruct (datetime_ltb _ _); reflexivity.
Qed.

Lemma appends_chain_step c x : appends creates_nothing (chain_step c x).
Proof.
  apply appends_bind; [apply appends_check_cert_not_after|].
  intros _. apply appends_c_write.
Qed.

Lemma appends_load_cert_chain ctx path pw :
  appends creates_nothing (load_cert_chain ctx path pw).
Proof.
  intros w. apply log_extends_same. unfold load_cert_chain.
  destruct (tls_load_cert_chain _ _ _ _) as [[r files] c]. reflexivity.
Qed.

Lemma appends_materialize_and_load ctx c key cert chain pw :
  appends creates_nothing (materialize_and_load ctx c key cert chain pw).
Proof.
  unfold materialize_and_load.
  apply appends_bind; [apply appends_lift|intros pk_buf].
  apply appends_bind; [apply appends_c_write|intros _].
  apply appends_bind; [apply appends_lift|intros buf].
  apply appends_bind; [apply appends_c_write|intros _].
  apply appends_bind.
  { destruct chain; [apply appends_ret|].
    apply appends_for_each. intros x. apply appends_chain_step. }
  intros _.
  apply appends_bind; [apply appends_c_flush|intros _].
  apply appends_bind; [apply appends_c_close|intros _].
  apply appends_load_cert_chain.
Qed.

Lemma appends_guarded_materialize ctx c key cert chain pw :
  appends creates_nothing
    (try_finally
       (try_finally (materialize_and_load ctx c key cert chain pw)
          (os_remove c))
       (c_close c) ;;
     ret ctx).
Proof.
  apply appends_bind; [|intros _; apply appends_ret].
  apply appends_try_finally; [|apply appends_c_close].
  apply appends_try_finally; [|apply appends_os_remove].
  apply appends_materialize_and_load.
Qed.

(** C3.  Whatever [create_sslcontext] returns or raises -- a decode error,
    an expired leaf or chain certificate, a rejection by the crypto or the
    TLS library, or the context -- no file exists under the temporary
    file's name when the call is over, and that name is the only one under
    which the call created a file. *)
Theorem temporary_file_removed (pkcs12_data : bytes)
    (pkcs12_password_bytes : option bytes) (protocol : ssl_protocol)
    (w : world) :
  let w' :=
    snd (create_sslcontext pkcs12_data pkcs12_password_bytes protocol w) in
  fs w' !! tmp_name w = None
  /\ log_extends (fun ev => forall p, ev = EvCreate p -> p = tmp_name w) w w'.
Proof.
  destruct (load_key_and_certificates pkcs12_data pkcs12_password_bytes)
    as [[[key cert] chain]|e] eqn:Hdecode.
  2: { rewrite (create_decode_raise _ _ _ _ _ Hdecode). simpl.
       split; [apply tmp_name_fresh|apply log_extends_refl]. }
  destruct cert as [leaf|].
  2: { rewrite (create_no_certificate _ _ _ _ _ _ Hdecode). simpl.
       split; [apply tmp_name_fresh|apply log_extends_refl]. }
  destruct (expired_at (clock_reads w) leaf) eqn:Hleaf.
  { rewrite (create_leaf_expired _ _ _ _ _ _ _ Hdecode Hleaf). simpl.
    split; [apply tmp_name_fresh|apply log_extends_same; reflexivity]. }
  rewrite (create_prologue _ _ _ _ _ _ _ Hdecode Hleaf). cbv zeta.
  split.
  - rewrite bind_ret_world, try_finally_world, c_close_fs, try_finally_world.
    apply os_remove_absent.
  - eapply log_extends_trans.
    + exists [EvCreate (tmp_name w)]. split; [apply world_at_try_log|].
      repeat constructor. intros p [= <-]. reflexivity.
    + eapply log_extends_weaken; [|apply appends_guarded_materialize].
      intros ev Hev p ->. exfalso. exact (Hev p eq_refl).
Qed.

End LogOfTheMaterializer.

Lemma os_remove_ok (path : string) (w : world) (data : bytes) :
  fs w !! path = Some data ->
  os_remove path w =
    (Ok tt, add_event (EvRemove path) (set_fs (delete path (fs w)) w)).
Proof. intros E. unfold os_remove. rewrite E. reflexivity. Qed.

Lemma os_remove_missing (path : string) (w : world) :
  fs w !! path = None -> os_remove path w = (Raise (no_such_file path), w).
Proof. intros E. unfold os_remove. rewrite E. reflexivity. Qed.

Lemma c_close_open (c : string) (w : world) :
  c ∈ open_files w ->
  c_close c w =
    (Ok tt, add_event (EvClose c) (set_open_files (open_files w ∖ {[c]}) w)).
Proof. intros E. unfold c_close. rewrite decide_True by exact E. reflexivity. Qed.

Lemma delete_created_file (c : string) (m m' : gmap string bytes) :
  m !! c = None ->
  (forall k, k <> c -> m' !! k = m !! k) ->
  delete c m' = m.
Proof.
  intros Hc Hother. apply map_eq. intros k.
  destruct (decide (k = c)) as [->|Hk].
  - rewrite lookup_delete_eq, Hc. reflexivity.
  - rewrite lookup_delete_ne by congruence. apply Hother. exact Hk.
Qed.

Section ExpiryAndCleanup.
Context {clock : Clock} {crypto : Cryptography} {tls : TlsLibrary}.

(** The file once the key, the leaf and [l] have been written. *)
Lemma written_file c pk_buf leaf l w1 base :
  fs w1 !! c = Some base ->
  fs (after_chain c l
        (snd (c_write c (public_bytes leaf) (snd (c_write c pk_buf w1))))) !! c
  = Some (base ++ pk_buf ++ public_bytes leaf ++ concat (map public_bytes l)).
Proof.
  intros E. rewrite after_chain_file. simpl.
  rewrite !lookup_alter_eq, E. simpl. rewrite <- !app_assoc. reflexivity.
Qed.

Lemma written_other_files k pk_buf leaf l proto w :
  k <> tmp_name w ->
  fs (after_chain (tmp_name w) l
        (snd (c_write (tmp_name w) (public_bytes leaf)
           (snd (c_write (tmp_name w) pk_buf (world_at_try proto w)))))) !! k
  = fs w !! k.
Proof.
  intros Hk. rewrite after_chain_other_files by exact Hk.
  rewrite !c_write_fs, !lookup_alter_ne, world_at_try_fs by congruence.
  apply lookup_insert_ne. congruence.
Qed.

(** The run in which the crypto library refuses to serialize the key. *)
Lemma create_key_rejected data pw proto w key leaf chain e :
  load_key_and_certificates data pw = Ok (key, Some leaf, chain) ->
  expired_at (clock_reads w) leaf = false ->
  serialize_private_key key pw = Raise e ->
  let r := create_sslcontext data pw proto w in
  fst r = Raise e
  /\ io_log (snd r) =
       io_log w ++ [EvCreate (tmp_name w); EvRemove (tmp_name w);
                    EvClose (tmp_name w)]
  /\ fs (snd r) = fs w.
Proof.
  intros Hdecode Hleaf Hkey r. unfold r.
  rewrite (create_prologue _ _ _ _ _ _ _ Hdecode Hleaf).
  set (c := tmp_name w). set (w1 := world_at_try proto w).
  unfold bind.
  erewrite (try_finally_fin_ok _ (c_close c) w1); cycle 1.
  - eapply try_finally_fin_ok.
    + apply materialize_serialize_raise. exact Hkey.
    + eapply os_remove_ok. apply world_at_try_file.
  - apply c_close_open. apply world_at_try_open.
  - cbn [fst snd io_log fs add_event set_fs set_open_files].
    split; [reflexivity|]. split.
    + unfold w1. rewrite world_at_try_log, <- !app_assoc. reflexivity.
    + apply delete_created_file; [apply tmp_name_fresh|].
      intros k Hk. unfold w1. rewrite world_at_try_fs.
      apply lookup_insert_ne. intros E. apply Hk. symmetry. exact E.
Qed.

(** The run in which the certificate [bad] of the chain is the first
    expired one. *)
Lemma create_chain_expired data pw proto w key leaf pre bad post pk_buf :
  load_key_and_certificates data pw = Ok (key, Some leaf, pre ++ bad :: post) ->
  expired_at (clock_reads w) leaf = false ->
  serialize_private_key key pw = Ok pk_buf ->
  (forall i x, pre !! i = Some x ->
               expired_at (S (clock_reads w) + i) x = false) ->
  expired_at (S (clock_reads w) + length pre) bad = true ->
  let c := tmp_name w in
  let r := create_sslcontext data pw proto w in
  fst r = Raise (Exn ValueError (expired_message (not_valid_after bad)) None)
  /\ io_log (snd r) =
       io_log w ++
       [EvCreate c; EvWrite c pk_buf; EvWrite c (public_bytes leaf)] ++
       chain_writes c pre ++ [EvRemove c; EvClose c]
  /\ fs (snd r) = fs w.
Proof.
  intros Hdecode Hleaf Hkey Hpre Hbad c r. unfold r.
  rewrite (create_prologue _ _ _ _ _ _ _ Hdecode Hleaf).
  fold c. set (w1 := world_at_try proto w).
  pose proof (written_file c pk_buf leaf pre w1 [] (world_at_try_file proto w))
    as Hfile.
  unfold bind.
  erewrite (try_finally_fin_ok _ (c_close c) w1); cycle 1.
  - eapply try_finally_fin_ok.
    + apply materialize_chain_expired; [exact Hkey|exact Hpre|exact Hbad].
    + eapply os_remove_ok. exact Hfile.
  - apply c_close_open. simpl. rewrite after_chain_open. simpl. set_solver.
  - cbn [fst snd io_log fs add_event set_fs set_open_files tick].
    split; [reflexivity|]. split.
    + rewrite after_chain_log. unfold w1.
      cbn [fst snd io_log fs add_event set_fs c_write].
      rewrite world_at_try_log, <- !app_assoc. reflexivity.
    + apply delete_created_file; [apply tmp_name_fresh|].
      intros k Hk. apply (written_other_files k pk_buf leaf pre proto w Hk).
Qed.

(** C2, as the code has it.  The leaf certificate is checked before the
    temporary file exists: when it is expired the call raises with nothing
    created or written, the clock read being the only trace.  The
    certificates of the chain are checked one by one inside the loop that
    writes them: when [bad] is the first expired one, the call raises its
    expiry error after the file was created and the key block, the leaf
    block and the blocks of the certificates before [bad] were written to
    it; the file is then removed. *)
Theorem expiry_failures_and_file_io (pkcs12_data : bytes)
    (pkcs12_password_bytes : option bytes) (protocol : ssl_protocol)
    (w : world) (key : option private_key) (leaf : certificate)
    (chain : list certificate) :
  load_key_and_certificates pkcs12_data pkcs12_password_bytes =
    Ok (key, Some leaf, chain) ->
  let c := tmp_name w in
  let r := create_sslcontext pkcs12_data pkcs12_password_bytes protocol w in
  (expired_at (clock_reads w) leaf = true ->
   r = (Raise (Exn ValueError (expired_message (not_valid_after leaf)) None),
        tick w))
  /\ (forall pk_buf pre bad post,
        expired_at (clock_reads w) leaf = false ->
        serialize_private_key key pkcs12_password_bytes = Ok pk_buf ->
        chain = pre ++ bad :: post ->
        (forall i x, pre !! i = Some x ->
                     expired_at (S (clock_reads w) + i) x = false) ->
        expired_at (S (clock_reads w) + length pre) bad = true ->
        fst r =
          Raise (Exn ValueError (expired_message (not_valid_after bad)) None)
        /\ io_log (snd r) =
             io_log w ++
             [EvCreate c; EvWrite c pk_buf; EvWrite c (public_bytes leaf)] ++
             chain_writes c pre ++ [EvRemove c; EvClose c]
        /\ fs (snd r) = fs w).
Proof.
  intros Hdecode c r. split.
  - intros Hleaf. apply (create_leaf_expired _ _ _ _ _ _ _ Hdecode Hleaf).
  - intros pk_buf pre bad post Hleaf Hkey -> Hpre Hbad.
    apply (create_chain_expired _ _ _ _ _ _ _ _ _ _ Hdecode Hleaf Hkey Hpre Hbad).
Qed.

End ExpiryAndCleanup.

Section KeySerialization.
Context {clock : Clock} {crypto : Cryptography} {tls : TlsLibrary}.

(** The run in which the key block is written. *)
Lemma create_key_written data pw proto w key leaf chain pk_buf :
  load_key_and_certificates data pw = Ok (key, Some leaf, chain) ->
  expired_at (clock_reads w) leaf = false ->
  serialize_private_key key pw = Ok pk_buf ->
  exists rest,
    io_log (snd (create_sslcontext data pw proto w)) =
      io_log w ++ EvCreate (tmp_name w) :: EvWrite (tmp_name w) pk_buf :: rest.
Proof.
  intros Hdecode Hleaf Hkey.
  rewrite (create_prologue _ _ _ _ _ _ _ Hdecode Hleaf).
  set (c := tmp_name w). set (w1 := world_at_try proto w).
  rewrite bind_ret_world, try_finally_world, try_finally_world.
  assert (Hbody : log_extends creates_nothing (snd (c_write c pk_buf w1))
            (snd (materialize_and_load (next_loc w) c key (Some leaf) chain
                    pw w1))).
  { unfold materialize_and_load.
    unfold bind at 1. unfold lift at 1. rewrite Hkey.
    unfold bind at 1.
    change (c_write c pk_buf w1) with (Ok tt, snd (c_write c pk_buf w1)).
    cbn [snd].
    generalize (snd (c_write c pk_buf w1)).
    match goal with
    | |- forall w0, log_extends _ w0 (snd (?m w0)) =>
        change (appends creates_nothing m)
    end.
    apply appends_bind; [apply appends_lift|intros buf].
    apply appends_bind; [apply appends_c_write|intros _].
    apply appends_bind.
    { destruct chain; [apply appends_ret|].
      apply appends_for_each. intros x. apply appends_chain_step. }
    intros _.
    apply appends_bind; [apply appends_c_flush|intros _].
    apply appends_bind; [apply appends_c_close|intros _].
    apply appends_load_cert_chain. }
  pose proof (log_extends_trans _ _ _ _ Hbody
    (log_extends_trans _ _ _ _ (appends_os_remove c _) (appends_c_close c _)))
    as (rest & Erest & _).
  exists rest. rewrite Erest. unfold w1.
  cbn [fst snd io_log add_event set_fs c_write].
  rewrite world_at_try_log, <- !app_assoc. reflexivity.
Qed.

(** C7.  With a password the key block is the one the crypto library
    makes with [BestAvailableEncryption(password)], and when the library
    refuses -- the encryption object (an empty password) or the
    serialization -- the call raises that very exception, nothing of the
    key having been written; without a password the block is the one made
    with [NoEncryption()].  In both cases the key block is the first thing
    written to the temporary file. *)
Theorem private_key_block (pkcs12_data : bytes)
    (pkcs12_password_bytes : option bytes) (protocol : ssl_protocol)
    (w : world) (key : private_key) (leaf : certificate)
    (chain : list certificate) :
  load_key_and_certificates pkcs12_data pkcs12_password_bytes =
    Ok (Some key, Some leaf, chain) ->
  expired_at (clock_reads w) leaf = false ->
  let c := tmp_name w in
  let r := create_sslcontext pkcs12_data pkcs12_password_bytes protocol w in
  let rejected e :=
    fst r = Raise e /\
    io_log (snd r) = io_log w ++ [EvCreate c; EvRemove c; EvClose c] in
  let written pk_buf :=
    exists rest,
      io_log (snd r) = io_log w ++ EvCreate c :: EvWrite c pk_buf :: rest in
  match pkcs12_password_bytes with
  | Some password =>
      match BestAvailableEncryption password with
      | Raise e => rejected e
      | Ok enc =>
          match private_bytes key enc with
          | Raise e => rejected e
          | Ok pk_buf => written pk_buf
          end
      end
  | None =>
      match private_bytes key NoEncryption with
      | Raise e => rejected e
      | Ok pk_buf => written pk_buf
      end
  end.
Proof.
  intros Hdecode Hleaf c r rejected written.
  assert (Hrej : forall e,
    serialize_private_key (Some key) pkcs12_password_bytes = Raise e ->
    rejected e).
  { intros e He.
    destruct (create_key_rejected _ _ protocol _ _ _ _ _ Hdecode Hleaf He)
      as (E1 & E2 & _).
    split; assumption. }
  assert (Hwr : forall pk_buf,
    serialize_private_key (Some key) pkcs12_password_bytes = Ok pk_buf ->
    written pk_buf).
  { intros pk_buf Hk.
    apply (create_key_written _ _ protocol _ _ _ _ _ Hdecode Hleaf Hk). }
  unfold serialize_private_key in Hrej, Hwr.
  destruct pkcs12_password_bytes as [password|].
  - destruct (BestAvailableEncryption password) as [enc|e].
    + destruct (private_bytes key enc) as [pk_buf|e]; auto.
    + auto.
  - destruct (private_bytes key NoEncryption) as [pk_buf|e]; auto.
Qed.

(** C4, as the code has it.  When the removal of the temporary file in the
    [finally] clause fails, [create_sslcontext] raises the removal's own
    [FileNotFoundError] -- not a credential error -- and an exception that
    was in flight from the [try] suite does not reach the caller: it is
    kept only as the context of the [FileNotFoundError].  When the removal
    succeeds, the outcome of the [try] suite is the outcome of the call. *)
Theorem cleanup_failure_replaces_error (pkcs12_data : bytes)
    (pkcs12_password_bytes : option bytes) (protocol : ssl_protocol)
    (w : world) (key : option private_key) (leaf : certificate)
    (chain : list certificate) :
  load_key_and_certificates pkcs12_data pkcs12_password_bytes =
    Ok (key, Some leaf, chain) ->
  expired_at (clock_reads w) leaf = false ->
  let c := tmp_name w in
  let ssl_context := next_loc w in
  let tried :=
    materialize_and_load ssl_context c key (Some leaf) chain
      pkcs12_password_bytes (world_at_try protocol w) in
  let r := create_sslcontext pkcs12_data pkcs12_password_bytes protocol w in
  (fs (snd tried) !! c = None ->
   exists e',
     fst r = Raise e'
     /\ exn_class e' = FileNotFoundError
     /\ exn_msg e' = exn_msg (no_such_file c)
     /\ exn_context e' =
          match fst tried with Ok _ => None | Raise e => Some e end)
  /\ (fs (snd tried) !! c <> None ->
      fst r = match fst tried with Ok _ => Ok ssl_context | Raise e => Raise e end).
Proof.
  intros Hdecode Hleaf c ssl_context tried r. unfold r.
  rewrite (create_prologue _ _ _ _ _ _ _ Hdecode Hleaf).
  fold c ssl_context. set (w1 := world_at_try protocol w).
  assert (Htried : materialize_and_load ssl_context c key (Some leaf) chain
                     pkcs12_password_bytes w1 = (fst tried, snd tried))
    by (unfold tried, w1; apply surjective_pairing).
  split.
  - intros Hgone. unfold bind.
    erewrite (try_finally_fin_ok _ (c_close c) w1); cycle 1.
    + eapply try_finally_fin_raise; [exact Htried|].
      apply os_remove_missing. exact Hgone.
    + apply c_close_ok.
    + eexists. split; [reflexivity|].
      destruct (fst tried) as [[]|e]; repeat split; reflexivity.
  - intros Hthere. destruct (fs (snd tried) !! c) as [content|] eqn:Ec;
      [|contradiction].
    unfold bind.
    erewrite (try_finally_fin_ok _ (c_close c) w1); cycle 1.
    + eapply try_finally_fin_ok; [exact Htried|].
      eapply os_remove_ok. exact Ec.
    + apply c_close_ok.
    + destruct (fst tried) as [[]|e]; reflexivity.
Qed.

End KeySerialization.

Section RoundTrip.
Context {clock : Clock} {crypto : Cryptography} {tls : TlsLibrary}
  {reader : PemReader}.

(** What the reader is assumed to do: it takes a block written by
    [private_bytes], respectively [public_bytes], off the front of a byte
    string, and finds no certificate in the empty string. *)
Hypothesis read_private_key_block :
  forall key password pk_buf rest,
    serialize_private_key (Some key) password = Ok pk_buf ->
    read_private_key password (pk_buf ++ rest) = Some (key, rest).
Hypothesis read_certificate_block :
  forall cert rest,
    read_certificate (public_bytes cert ++ rest) = Some (cert, rest).
Hypothesis read_certificate_end : read_certificate [] = None.

Lemma read_certificates_chain (l : list certificate) (fuel : nat) :
  length l <= fuel ->
  read_certificates fuel (concat (map public_bytes l)) = l.
Proof.
  revert fuel. induction l as [|x l IH]; intros fuel Hfuel; simpl.
  - destruct fuel; simpl; [|rewrite read_certificate_end]; reflexivity.
  - destruct fuel as [|n]; [simpl in Hfuel; lia|]. simpl.
    rewrite read_certificate_block. f_equal. apply IH. simpl in Hfuel. lia.
Qed.

Lemma public_bytes_not_empty (cert : certificate) :
  1 <= length (public_bytes cert).
Proof.
  destruct (public_bytes cert) as [|b l] eqn:E; [|simpl; lia].
  pose proof (read_certificate_block cert []) as Hb.
  rewrite E in Hb. simpl in Hb. rewrite read_certificate_end in Hb.
  discriminate.
Qed.

Lemma chain_length_le (l : list certificate) :
  length l <= length (concat (map public_bytes l)).
Proof.
  induction l as [|x l IH]; simpl; [lia|].
  rewrite length_app. pose proof (public_bytes_not_empty x). lia.
Qed.

Lemma decode_pem_sequence_written key password pk_buf leaf chain :
  serialize_private_key (Some key) password = Ok pk_buf ->
  decode_pem_sequence password
    (pk_buf ++ public_bytes leaf ++ concat (map public_bytes chain))
  = Some (key, leaf, chain).
Proof.
  intros Hkey. unfold decode_pem_sequence.
  rewrite (read_private_key_block _ _ _ _ Hkey).
  change (public_bytes leaf ++ concat (map public_bytes chain))
    with (concat (map public_bytes (leaf :: chain))).
  rewrite read_certificates_chain by apply chain_length_le.
  reflexivity.
Qed.

(** C8.  When the bundle decodes to a key, a leaf and a chain, no
    certificate is expired and the key serializes, the temporary file that
    [load_cert_chain] is given holds exactly the key block, then the leaf
    block, then one block per certificate of the chain in the decoder's
    order -- written by one [write] each, in that order -- and reading that
    byte string back yields the same key, leaf and chain. *)
Theorem materialized_pem_sequence (pkcs12_data : bytes)
    (pkcs12_password_bytes : option bytes) (protocol : ssl_protocol)
    (w : world) (key : private_key) (leaf : certificate)
    (chain : list certificate) (pk_buf : bytes) :
  load_key_and_certificates pkcs12_data pkcs12_password_bytes =
    Ok (Some key, Some leaf, chain) ->
  expired_at (clock_reads w) leaf = false ->
  (forall i x, chain !! i = Some x ->
               expired_at (S (clock_reads w) + i) x = false) ->
  serialize_private_key (Some key) pkcs12_password_bytes = Ok pk_buf ->
  let c := tmp_name w in
  let pem := pk_buf ++ public_bytes leaf ++ concat (map public_bytes chain) in
  let w_load := world_at_load c pk_buf leaf chain (world_at_try protocol w) in
  create_sslcontext pkcs12_data pkcs12_password_bytes protocol w =
    load_and_clean_up (next_loc w) c pkcs12_password_bytes w_load
  /\ fs w_load !! c = Some pem
  /\ io_log w_load =
       io_log w ++
       [EvCreate c; EvWrite c pk_buf; EvWrite c (public_bytes leaf)] ++
       chain_writes c chain ++ [EvFlush c; EvClose c]
  /\ decode_pem_sequence pkcs12_password_bytes pem = Some (key, leaf, chain).
Proof.
  intros Hdecode Hleaf Hchain Hkey c pem w_load.
  split; [|split; [|split]].
  - rewrite (create_prologue _ _ _ _ _ _ _ Hdecode Hleaf). fold c.
    unfold load_and_clean_up, bind.
    erewrite (try_finally_ext _ _ (c_close c)); [reflexivity|].
    apply try_finally_ext.
    apply materialize_reaches_load; [exact Hkey|exact Hchain].
  - unfold w_load, world_at_load. rewrite c_close_fs.
    cbn [c_flush snd fs add_event].
    apply (written_file c pk_buf leaf chain _ []).
    apply world_at_try_file.
  - unfold w_load, world_at_load.
    rewrite c_close_open.
    + cbn [snd io_log add_event set_open_files c_flush].
      rewrite after_chain_log.
      cbn [snd io_log add_event set_fs c_write].
      rewrite world_at_try_log, <- !app_assoc. reflexivity.
    + cbn [snd open_files add_event c_flush]. rewrite after_chain_open.
      apply world_at_try_open.
  - apply decode_pem_sequence_written. exact Hkey.
Qed.

End RoundTrip.

(** ** The properties on the sample certificate store *)

Lemma check_hostname_untouched_witness :
  PyInt 0 <> PyBool false
  /\ is_False (PyInt 0) = false
  /\ cert_verify sample_adapter tt sample_url (PyInt 0) PyNone sample_world =
       (Ok tt, snd (set_check_hostname 0 true sample_world)).
Proof.
  assert (Hne : PyInt 0 <> PyBool false) by discriminate.
  split; [exact Hne|].
  destruct (check_hostname_untouched_unless_False sample_adapter tt sample_url
              tt PyNone PyNone (PyInt 0) PyNone PyNone sample_world Hne)
    as (E1 & E2 & _).
  split; [exact E1|exact E2].
Defined.

Example send_restores_after_failure :
  let r :=
    send (http := failing_http) (mk_Pkcs12Adapter (http := failing_http) 0 tt)
      tt PyNone PyNone (PyBool false) PyNone PyNone unchecked_world in
  fst r = Raise connection_error
  /\ check_hostname (heap unchecked_world 0) = false
  /\ check_hostname (heap (snd r) 0) = false.
Proof. repeat split. Qed.

Example temporary_file_removed_sample :
  let w' :=
    snd (create_sslcontext [Byte.x01] None PROTOCOL_TLS_CLIENT sample_world) in
  tmp_name sample_world = "0"
  /\ io_log w' =
       [EvCreate "0"; EvWrite "0" sample_key_block;
        EvWrite "0" (sample_public_bytes sample_leaf);
        EvWrite "0" (sample_public_bytes sample_ca1);
        EvWrite "0" (sample_public_bytes sample_ca2);
        EvFlush "0"; EvClose "0"; EvRemove "0"]
  /\ fs w' !! "0" = None.
Proof. repeat split; vm_compute; reflexivity. Qed.

Lemma request_password_only_witness :
  kw_pkcs12_data (password_only_keywords ∅) = None
  /\ kw_pkcs12_filename (password_only_keywords ∅) = None
  /\ request PROTOCOL_TLS_CLIENT [] (password_only_keywords ∅) sample_world =
       (Raise missing_source_error, sample_world).
Proof.
  split; [reflexivity|]. split; [reflexivity|].
  destruct (request_password_only PROTOCOL_TLS_CLIENT []
              (password_only_keywords ∅) sample_world eq_refl eq_refl)
    as [_ Hpw].
  destruct Hpw as (_ & _ & Hmissing); [discriminate|].
  apply (Hmissing ltac:(set_solver) tt sample_world sample_world);
    reflexivity.
Defined.

(** C10 as stated fails: a call with a password only and a [cert] argument
    does not raise the missing-source error. *)
Lemma request_password_only_with_cert :
  fst (request PROTOCOL_TLS_CLIENT []
         (password_only_keywords {[ "cert" := PyStr [] ]}) sample_world)
    = Raise cert_conflict_error
  /\ cert_conflict_error <> missing_source_error.
Proof. split; [reflexivity|discriminate]. Qed.

(** C6 as stated fails: with a file name that cannot be read, a password
    of a wrong type does not lead to a configuration error. *)
Lemma Pkcs12Adapter_init_unreadable_file :
  valid_password_type (PyInt 0) = false
  /\ fst (Pkcs12Adapter_init PROTOCOL_TLS_CLIENT []
            (mk_keywords None (Some "missing.p12") (PyInt 0) None ∅)
            sample_world)
     = Raise (no_such_file "missing.p12")
  /\ ~ is_configuration_error (no_such_file "missing.p12").
Proof.
  split; [reflexivity|]. split; [reflexivity|].
  intros [E|[E|E]]; discriminate.
Qed.

(** C2 as stated fails: the second certificate of the chain is expired,
    and the key block, the leaf block and the first chain block were
    written to the temporary file before the expiry error. *)
Lemma chain_expiry_after_writes :
  let r := create_sslcontext [Byte.x02] None PROTOCOL_TLS_CLIENT sample_world in
  fst r =
    Raise (Exn ValueError
             "Client certificate expired: Not After: 2020-01-02 03:04:05Z" None)
  /\ io_log (snd r) =
       [EvCreate "0"; EvWrite "0" sample_key_block;
        EvWrite "0" (sample_public_bytes sample_leaf);
        EvWrite "0" (sample_public_bytes sample_ca1);
        EvRemove "0"; EvClose "0"].
Proof. split; vm_compute; reflexivity. Qed.

Lemma expiry_failures_witness :
  sample_decode [Byte.x02] None =
    Ok (Some Byte.x07, Some sample_leaf, [sample_ca1; sample_old_ca])
  /\ fst (create_sslcontext [Byte.x02] None PROTOCOL_TLS_CLIENT sample_world) =
       Raise (Exn ValueError
                (expired_message (sample_not_valid_after sample_old_ca)) None)
  /\ io_log (snd (create_sslcontext [Byte.x02] None PROTOCOL_TLS_CLIENT
                    sample_world)) =
       [EvCreate (tmp_name sample_world);
        EvWrite (tmp_name sample_world) sample_key_block;
        EvWrite (tmp_name sample_world) (sample_public_bytes sample_leaf);
        EvWrite (tmp_name sample_world) (sample_public_bytes sample_ca1);
        EvRemove (tmp_name sample_world); EvClose (tmp_name sample_world)].
Proof.
  split; [reflexivity|].
  destruct (expiry_failures_and_file_io (clock := sample_clock)
              (crypto := sample_crypto) (tls := accepting_tls) [Byte.x02] None PROTOCOL_TLS_CLIENT
              sample_world (Some Byte.x07 : option (@private_key sample_crypto))
              (sample_leaf : @certificate sample_crypto)
              ([sample_ca1; sample_old_ca] : list (@certificate sample_crypto)) eq_refl)
    as [_ Hchain].
  destruct (Hchain sample_key_block ([sample_ca1] : list (@certificate sample_crypto))
              (sample_old_ca : @certificate sample_crypto) ([] : list (@certificate sample_crypto))
              eq_refl eq_refl eq_refl) as (E1 & E2 & _).
  - intros [|i] x Hx; [|discriminate]. injection Hx as <-. reflexivity.
  - reflexivity.
  - split; [exact E1|exact E2].
Defined.

Lemma private_key_block_witness :
  sample_decode [Byte.x01] (Some []) =
    Ok (Some Byte.x07, Some sample_leaf, [sample_ca1; sample_ca2])
  /\ expired_at 0 sample_leaf = false
  /\ fst (create_sslcontext [Byte.x01] (Some []) PROTOCOL_TLS_CLIENT
            sample_world)
     = Raise (Exn ValueError "Password must be 1 or more bytes." None).
Proof.
  split; [reflexivity|]. split; [reflexivity|].
  apply (private_key_block (clock := sample_clock) (crypto := sample_crypto)
           (tls := accepting_tls) [Byte.x01] (Some []) PROTOCOL_TLS_CLIENT
           sample_world (Byte.x07 : @private_key sample_crypto) (sample_leaf : @certificate sample_crypto)
           ([sample_ca1; sample_ca2] : list (@certificate sample_crypto)) eq_refl eq_refl).
Defined.

(** C4 as stated fails: the chain load raises [key_mismatch], the removal
    of the temporary file fails because the file is gone, and what the
    caller gets is the [FileNotFoundError]. *)
Lemma cleanup_failure_masks_error :
  let tried :=
    materialize_and_load (tls := rejecting_tls_file_gone) 0 "0"
      (Some Byte.x07 : option (@private_key sample_crypto))
      (Some sample_leaf : option (@certificate sample_crypto))
      ([sample_ca1; sample_ca2] : list (@certificate sample_crypto)) None
      (world_at_try PROTOCOL_TLS_CLIENT sample_world) in
  let r :=
    create_sslcontext (tls := rejecting_tls_file_gone) [Byte.x01] None
      PROTOCOL_TLS_CLIENT sample_world in
  fst tried = Raise key_mismatch
  /\ fst (os_remove "0" (snd tried)) = Raise (no_such_file "0")
  /\ fst r = Raise (with_context (no_such_file "0") key_mismatch)
  /\ with_context (no_such_file "0") key_mismatch <> key_mismatch.
Proof. repeat split; try (vm_compute; reflexivity). discriminate. Qed.

Lemma cleanup_failure_witness :
  sample_decode [Byte.x01] None =
    Ok (Some Byte.x07, Some sample_leaf, [sample_ca1; sample_ca2])
  /\ expired_at 0 sample_leaf = false
  /\ exists e',
       fst (create_sslcontext (tls := rejecting_tls_file_gone) [Byte.x01] None
              PROTOCOL_TLS_CLIENT sample_world) = Raise e'
       /\ exn_class e' = FileNotFoundError
       /\ exn_context e' = Some key_mismatch.
Proof.
  split; [reflexivity|]. split; [reflexivity|].
  destruct (cleanup_failure_replaces_error (clock := sample_clock)
              (crypto := sample_crypto)
              (tls := rejecting_tls_file_gone)
              [Byte.x01] None PROTOCOL_TLS_CLIENT sample_world
              (Some Byte.x07 : option (@private_key sample_crypto))
              (sample_leaf : @certificate sample_crypto)
              ([sample_ca1; sample_ca2] : list (@certificate sample_crypto))
              eq_refl eq_refl) as [Hgone _].
  destruct Hgone as (e' & E1 & E2 & _ & E4); [vm_compute; reflexivity|].
  exists e'. split; [exact E1|]. split; [exact E2|exact E4].
Defined.

Lemma sample_read_private_key_block key password pk_buf rest :
  serialize_private_key (Some key) password = Ok pk_buf ->
  sample_read_private_key password (pk_buf ++ rest) = Some (key, rest).
Proof.
  unfold serialize_private_key. simpl.
  destruct password as [[|b p]|]; simpl; intros E; try discriminate;
    injection E as <-; reflexivity.
Qed.

Lemma sample_read_certificate_block cert rest :
  sample_read_certificate (sample_public_bytes cert ++ rest) = Some (cert, rest).
Proof. destruct cert as [id []]; reflexivity. Qed.

Lemma materialized_pem_sequence_witness :
  let pem :=
    sample_key_block ++ sample_public_bytes sample_leaf ++
    sample_public_bytes sample_ca1 ++ sample_public_bytes sample_ca2 in
  sample_decode [Byte.x01] None =
    Ok (Some Byte.x07, Some sample_leaf, [sample_ca1; sample_ca2])
  /\ fs (world_at_load (tmp_name sample_world) sample_key_block sample_leaf
           [sample_ca1; sample_ca2]
           (world_at_try PROTOCOL_TLS_CLIENT sample_world))
       !! tmp_name sample_world = Some pem
  /\ decode_pem_sequence None pem =
       Some (Byte.x07, sample_leaf, [sample_ca1; sample_ca2]).
Proof.
  split; [reflexivity|].
  destruct (materialized_pem_sequence (clock := sample_clock)
              (crypto := sample_crypto) (tls := accepting_tls)
              (reader := sample_reader) sample_read_private_key_block
              sample_read_certificate_block eq_refl
              [Byte.x01] None PROTOCOL_TLS_CLIENT sample_world
              (Byte.x07 : @private_key sample_crypto) (sample_leaf : @certificate sample_crypto)
              ([sample_ca1; sample_ca2] : list (@certificate sample_crypto)) sample_key_block
              eq_refl eq_refl) as (_ & E2 & _ & E4).
  - intros [|[|i]] x Hx; try discriminate; injection Hx as <-; reflexivity.
  - reflexivity.
  - split; [exact E2|exact E4].
Defined.

(** * Further properties *)

(** ** Relations that every step maintains *)

Section Maintains.
Context (R : world -> world -> Prop) {R_preorder : PreOrder R}.

Lemma maintains_ret {A} (a : A) : maintains R (ret a).
Proof. intros w. reflexivity. Qed.

Lemma maintains_lift {A} (r : result A) : maintains R (lift r).
Proof. intros w. reflexivity. Qed.

Lemma maintains_bind {A B} (m : M A) (k : A -> M B) :
  maintains R m -> (forall a, maintains R (k a)) -> maintains R (bind m k).
Proof.
  intros Hm Hk w. unfold bind. specialize (Hm w).
  destruct (m w) as [[a|e] w1]; simpl in *.
  - etransitivity; [exact Hm|apply Hk].
  - exact Hm.
Qed.

Lemma maintains_try_finally {A} (body : M A) (fin : M unit) :
  maintains R body -> maintains R fin -> maintains R (try_finally body fin).
Proof.
  intros Hb Hf w. rewrite try_finally_world.
  etransitivity; [apply Hb|apply Hf].
Qed.

Lemma maintains_for_each {A} (l : list A) (body : A -> M unit) :
  (forall x, maintains R (body x)) -> maintains R (for_each l body).
Proof.
  intros Hb. induction l as [|x l IH]; simpl.
  - apply maintains_ret.
  - apply maintains_bind; [apply Hb|intros _; exact IH].
Qed.

Context {clock : Clock} {crypto : Cryptography} {tls : TlsLibrary}.

Lemma maintains_check_cert_not_after cert :
  (forall w, R w (tick w)) -> maintains R (check_cert_not_after cert).
Proof.
  intros Htick w. unfold check_cert_not_after.
  destruct cert as [c|]; [|reflexivity].
  unfold bind, utcnow. destruct (datetime_ltb _ _); apply Htick.
Qed.

(** A relation that the clock, the operations on the temporary file and
    the chain load maintain is maintained by [create_sslcontext]. *)
Lemma create_sslcontext_maintains data pw proto w :
  (forall w0, R w0 (tick w0)) ->
  R (tick w) (world_at_try proto w) ->
  (forall buf, maintains R (c_write (tmp_name w) buf)) ->
  maintains R (c_flush (tmp_name w)) ->
  maintains R (c_close (tmp_name w)) ->
  maintains R (os_remove (tmp_name w)) ->
  maintains R (load_cert_chain (next_loc w) (tmp_name w) pw) ->
  R w (snd (create_sslcontext data pw proto w)).
Proof.
  intros Htick Htry Hwrite Hflush Hclose Hremove Hload.
  destruct (load_key_and_certificates data pw)
    as [[[key cert] chain]|e] eqn:Hdecode.
  2: { rewrite (create_decode_raise _ _ _ _ _ Hdecode). reflexivity. }
  destruct cert as [leaf|].
  2: { rewrite (create_no_certificate _ _ _ _ _ _ Hdecode). reflexivity. }
  destruct (expired_at (clock_reads w) leaf) eqn:Hleaf.
  { rewrite (create_leaf_expired _ _ _ _ _ _ _ Hdecode Hleaf). apply Htick. }
  rewrite (create_prologue _ _ _ _ _ _ _ Hdecode Hleaf).
  etransitivity; [apply Htick|]. etransitivity; [exact Htry|].
  apply maintains_bind; [|intros _; apply maintains_ret].
  apply maintains_try_finally; [|exact Hclose].
  apply maintains_try_finally; [|exact Hremove].
  unfold materialize_and_load.
  apply maintains_bind; [apply maintains_lift|intros pk_buf].
  apply maintains_bind; [apply Hwrite|intros _].
  apply maintains_bind; [apply maintains_lift|intros buf].
  apply maintains_bind; [apply Hwrite|intros _].
  apply maintains_bind.
  { destruct chain; [apply maintains_ret|].
    apply maintains_for_each. intros x. unfold chain_step.
    apply maintains_bind;
      [apply maintains_check_cert_not_after; exact Htick|intros _; apply Hwrite]. }
  intros _.
  apply maintains_bind; [exact Hflush|intros _].
  apply maintains_bind; [exact Hclose|intros _].
  exact Hload.
Qed.

End Maintains.

#[local] Instance same_file_preorder (k : string) : PreOrder (same_file k).
Proof.
  split.
  - intros w. reflexivity.
  - intros w1 w2 w3 E1 E2. unfold same_file in *. congruence.
Qed.

#[local] Instance same_context_preorder (l : loc) : PreOrder (same_context l).
Proof.
  split.
  - intros w. reflexivity.
  - intros w1 w2 w3 E1 E2. unfold same_context in *. congruence.
Qed.

Lemma update_heap_other (l l' : loc) (c : ssl_context) (h : loc -> ssl_context) :
  l' <> l -> update_heap l c h l' = h l'.
Proof. intros Hne. unfold update_heap. rewrite decide_False; [reflexivity|exact Hne]. Qed.

Section Frames.
Context {clock : Clock} {crypto : Cryptography} {tls : TlsLibrary}.

Lemma c_close_maintains_file k c : maintains (same_file k) (c_close c).
Proof. intros w. unfold same_file. rewrite c_close_fs. reflexivity. Qed.

Lemma c_write_maintains_file k c buf :
  k <> c -> maintains (same_file k) (c_write c buf).
Proof.
  intros Hk w. unfold same_file. rewrite c_write_fs.
  apply lookup_alter_ne. congruence.
Qed.

Lemma os_remove_maintains_file k c :
  k <> c -> maintains (same_file k) (os_remove c).
Proof.
  intros Hk w. unfold same_file, os_remove.
  destruct (fs w !! c); simpl; [|reflexivity].
  apply lookup_delete_ne. congruence.
Qed.

Lemma load_maintains_file k ctx c pw :
  tls_keeps_files -> maintains (same_file k) (load_cert_chain ctx c pw).
Proof.
  intros Hkeep w. unfold same_file, load_cert_chain.
  specialize (Hkeep (fs w) (heap w ctx) c pw).
  destruct (tls_load_cert_chain _ _ _ _) as [[r files] c']. simpl in *.
  rewrite Hkeep. reflexivity.
Qed.

(** X3.  With a TLS library that leaves the files alone, the files on disk
    after [create_sslcontext] are exactly the files before it, on every
    path: neither the temporary file nor anything written to it stays. *)
Theorem create_sslcontext_leaves_no_file (pkcs12_data : bytes)
    (pkcs12_password_bytes : option bytes) (protocol : ssl_protocol)
    (w : world) :
  tls_keeps_files ->
  fs (snd (create_sslcontext pkcs12_data pkcs12_password_bytes protocol w))
    = fs w.
Proof.
  intros Hkeep. apply map_eq. intros k.
  destruct (decide (k = tmp_name w)) as [->|Hk].
  - rewrite tmp_name_fresh.
    destruct (load_key_and_certificates pkcs12_data pkcs12_password_bytes)
      as [[[key cert] chain]|e] eqn:Hdecode.
    2: { rewrite (create_decode_raise _ _ _ _ _ Hdecode). simpl.
         apply tmp_name_fresh. }
    destruct cert as [leaf|].
    2: { rewrite (create_no_certificate _ _ _ _ _ _ Hdecode). simpl.
         apply tmp_name_fresh. }
    destruct (expired_at (clock_reads w) leaf) eqn:Hleaf.
    { rewrite (create_leaf_expired _ _ _ _ _ _ _ Hdecode Hleaf). simpl.
      apply tmp_name_fresh. }
    rewrite (create_prologue _ _ _ _ _ _ _ Hdecode Hleaf).
    rewrite bind_ret_world, try_finally_world, c_close_fs, try_finally_world.
    apply os_remove_absent.
  - apply (create_sslcontext_maintains (same_file k)).
    + intros w0. reflexivity.
    + unfold same_file. rewrite world_at_try_fs.
      apply lookup_insert_ne. congruence.
    + intros buf. apply c_write_maintains_file. exact Hk.
    + intros w0. reflexivity.
    + apply c_close_maintains_file.
    + apply os_remove_maintains_file. exact Hk.
    + apply load_maintains_file. exact Hkeep.
Qed.

Lemma load_maintains_context l ctx c pw :
  l <> ctx -> maintains (same_context l) (load_cert_chain ctx c pw).
Proof.
  intros Hl w. unfold same_context, load_cert_chain.
  destruct (tls_load_cert_chain _ _ _ _) as [[r files] c']. simpl.
  apply update_heap_other. exact Hl.
Qed.

Lemma create_sslcontext_returns_next_loc data pw proto w ctx :
  fst (create_sslcontext data pw proto w) = Ok ctx -> ctx = next_loc w.
Proof.
  destruct (load_key_and_certificates data pw)
    as [[[key cert] chain]|e] eqn:Hdecode.
  2: { rewrite (create_decode_raise _ _ _ _ _ Hdecode). discriminate. }
  destruct cert as [leaf|].
  2: { rewrite (create_no_certificate _ _ _ _ _ _ Hdecode). discriminate. }
  destruct (expired_at (clock_reads w) leaf) eqn:Hleaf.
  { rewrite (create_leaf_expired _ _ _ _ _ _ _ Hdecode Hleaf). discriminate. }
  rewrite (create_prologue _ _ _ _ _ _ _ Hdecode Hleaf).
  unfold bind, ret.
  destruct (try_finally _ _ _) as [[[]|e] w']; simpl; congruence.
Qed.

(** X4.  [create_sslcontext] works on a context object of its own: on every
    path, whatever the TLS library does, every context object that existed
    before the call is as it was, and a returned context is a new one. *)
Theorem create_sslcontext_fresh_context (pkcs12_data : bytes)
    (pkcs12_password_bytes : option bytes) (protocol : ssl_protocol)
    (w : world) :
  let r := create_sslcontext pkcs12_data pkcs12_password_bytes protocol w in
  (forall l, l <> next_loc w -> heap (snd r) l = heap w l)
  /\ (forall ctx, fst r = Ok ctx -> ctx = next_loc w).
Proof.
  intros r. split.
  - intros l Hl. unfold r.
    apply (create_sslcontext_maintains (same_context l)).
    + intros w0. reflexivity.
    + unfold same_context. simpl. apply update_heap_other. exact Hl.
    + intros buf w0. reflexivity.
    + intros w0. reflexivity.
    + intros w0. unfold same_context, c_close.
      destruct (decide _); reflexivity.
    + intros w0. unfold same_context, os_remove.
      destruct (fs w0 !! _); reflexivity.
    + apply load_maintains_context. exact Hl.
  - intros ctx. apply create_sslcontext_returns_next_loc.
Qed.

End Frames.

Section Outcomes.
Context {clock : Clock} {crypto : Cryptography} {tls : TlsLibrary}.

(** X1.  A bundle that does not give a key and a certificate.  An error of
    the decoder is the error of [create_sslcontext], unchanged, and a
    bundle without a certificate fails with an [AttributeError]; in both
    cases nothing else has happened: the clock was not read, no context
    object and no file were created.  A bundle with an unexpired
    certificate and without a private key fails with an [AttributeError]
    inside the [try] statement: the temporary file is created and removed
    again with nothing written to it, and the files on disk are as
    before. *)
Theorem create_sslcontext_unusable_bundle (pkcs12_data : bytes)
    (pkcs12_password_bytes : option bytes) (protocol : ssl_protocol)
    (w : world) :
  let decoded :=
    load_key_and_certificates pkcs12_data pkcs12_password_bytes in
  let r := create_sslcontext pkcs12_data pkcs12_password_bytes protocol w in
  (forall e, decoded = Raise e -> r = (Raise e, w))
  /\ (forall key chain,
        decoded = Ok (key, None, chain) ->
        r = (Raise (none_has_no_attribute "not_valid_after"), w))
  /\ (forall leaf chain,
        decoded = Ok (None, Some leaf, chain) ->
        expired_at (clock_reads w) leaf = false ->
        fst r = Raise (none_has_no_attribute "private_bytes")
        /\ io_log (snd r) =
             io_log w ++ [EvCreate (tmp_name w); EvRemove (tmp_name w);
                          EvClose (tmp_name w)]
        /\ fs (snd r) = fs w).
Proof.
  intros decoded r. split; [|split].
  - intros e Hdecode. apply (create_decode_raise _ _ _ _ _ Hdecode).
  - intros key chain Hdecode. apply (create_no_certificate _ _ _ _ _ _ Hdecode).
  - intros leaf chain Hdecode Hleaf.
    apply (create_key_rejected _ _ _ _ _ _ _ _ Hdecode Hleaf). reflexivity.
Qed.

Lemma world_at_load_fs c pk_buf leaf chain proto w :
  c = tmp_name w ->
  fs (world_at_load c pk_buf leaf chain (world_at_try proto w)) =
    <[c := pem_sequence pk_buf leaf chain]> (fs w).
Proof.
  intros ->. unfold world_at_load. rewrite c_close_fs.
  cbn [c_flush snd fs add_event].
  apply map_eq. intros k. destruct (decide (k = tmp_name w)) as [->|Hk].
  - rewrite lookup_insert_eq.
    apply (written_file _ pk_buf leaf chain _ []). apply world_at_try_file.
  - rewrite lookup_insert_ne by congruence.
    apply written_other_files. exact Hk.
Qed.

Lemma world_at_load_heap c pk_buf leaf chain proto w :
  heap (world_at_load c pk_buf leaf chain (world_at_try proto w)) (next_loc w)
    = new_context proto.
Proof.
  unfold world_at_load, c_close. destruct (decide _);
    cbn [snd heap add_event set_open_files c_flush];
    rewrite after_chain_heap; simpl; apply update_heap_same.
Qed.

Lemma world_at_load_closed c pk_buf leaf chain w1 :
  c ∉ open_files (world_at_load c pk_buf leaf chain w1).
Proof.
  unfold world_at_load, c_close. destruct (decide _) as [Hin|Hout]; simpl.
  - intros Hc. apply elem_of_difference in Hc as [_ Hc]. apply Hc.
    apply elem_of_singleton. reflexivity.
  - exact Hout.
Qed.

(** X2.  When no certificate is expired and the key serializes, the TLS
    library is called once, on the new context object as [ssl.SSLContext]
    made it, with the files on disk plus the temporary file holding the PEM
    sequence, and with the password that decoded the bundle.  If it leaves
    the temporary file in place, its outcome is the outcome of the call:
    its error unchanged, or the context as the library left it; the
    temporary file is removed after it. *)
Theorem create_sslcontext_load_outcome (pkcs12_data : bytes)
    (pkcs12_password_bytes : option bytes) (protocol : ssl_protocol)
    (w : world) (key : private_key) (leaf : certificate)
    (chain : list certificate) (pk_buf : bytes)
    (loaded : result unit) (files : gmap string bytes) (ctx' : ssl_context) :
  load_key_and_certificates pkcs12_data pkcs12_password_bytes =
    Ok (Some key, Some leaf, chain) ->
  expired_at (clock_reads w) leaf = false ->
  (forall i x, chain !! i = Some x ->
               expired_at (S (clock_reads w) + i) x = false) ->
  serialize_private_key (Some key) pkcs12_password_bytes = Ok pk_buf ->
  let c := tmp_name w in
  tls_load_cert_chain (<[c := pem_sequence pk_buf leaf chain]> (fs w))
    (new_context protocol) c pkcs12_password_bytes = (loaded, files, ctx') ->
  files !! c <> None ->
  let r := create_sslcontext pkcs12_data pkcs12_password_bytes protocol w in
  fst r = match loaded with Ok _ => Ok (next_loc w) | Raise e => Raise e end
  /\ heap (snd r) (next_loc w) = ctx'
  /\ fs (snd r) = base.delete c files
  /\ io_log (snd r) =
       io_log w ++
       [EvCreate c; EvWrite c pk_buf; EvWrite c (public_bytes leaf)] ++
       chain_writes c chain ++ [EvFlush c; EvClose c; EvRemove c].
Proof.
  intros Hdecode Hleaf Hchain Hkey c Hload Hthere r.
  set (w_load := world_at_load c pk_buf leaf chain (world_at_try protocol w)).
  assert (Hrun : create_sslcontext pkcs12_data pkcs12_password_bytes protocol w
                 = load_and_clean_up (next_loc w) c pkcs12_password_bytes w_load).
  { rewrite (create_prologue _ _ _ _ _ _ _ Hdecode Hleaf). fold c.
    unfold load_and_clean_up, bind.
    erewrite (try_finally_ext _ _ (c_close c)); [reflexivity|].
    apply try_finally_ext.
    apply materialize_reaches_load; [exact Hkey|exact Hchain]. }
  assert (Hcall : load_cert_chain (next_loc w) c pkcs12_password_bytes w_load =
            (loaded,
             set_heap (update_heap (next_loc w) ctx' (heap w_load))
               (set_fs files w_load))).
  { unfold load_cert_chain. unfold w_load at 1 2.
    rewrite world_at_load_fs by reflexivity.
    rewrite world_at_load_heap. fold c. rewrite Hload. reflexivity. }
  destruct (files !! c) as [content|] eqn:Ec; [|contradiction].
  assert (Hlog : io_log w_load =
       io_log w ++
       [EvCreate c; EvWrite c pk_buf; EvWrite c (public_bytes leaf)] ++
       chain_writes c chain ++ [EvFlush c; EvClose c]).
  { unfold w_load, world_at_load. rewrite c_close_open.
    - cbn [snd io_log add_event set_open_files c_flush].
      rewrite after_chain_log.
      cbn [snd io_log add_event set_fs c_write].
      rewrite world_at_try_log, <- !app_assoc. reflexivity.
    - cbn [snd open_files add_event c_flush]. rewrite after_chain_open.
      apply world_at_try_open. }
  pose proof (world_at_load_closed c pk_buf leaf chain
                (world_at_try protocol w)) as Hclosed.
  fold w_load in Hclosed. clearbody w_load.
  unfold r. rewrite Hrun. unfold load_and_clean_up, bind.
  erewrite (try_finally_fin_ok _ (c_close c) w_load); cycle 1.
  - eapply try_finally_fin_ok; [exact Hcall|].
    eapply os_remove_ok. exact Ec.
  - unfold c_close. rewrite decide_False; [reflexivity|exact Hclosed].
  - destruct loaded as [[]|e];
      cbn [fst snd heap fs io_log add_event set_fs set_heap ret];
      (split; [reflexivity|]); (split; [apply update_heap_same|]);
      (split; [reflexivity|]); rewrite Hlog, <- !app_assoc; reflexivity.
Qed.

End Outcomes.

(** ** Dates *)

Lemma datetime_lt_not_lt_trans (a b c : datetime) :
  datetime_lt a b -> ~ datetime_lt c b -> datetime_lt a c.
Proof.
  destruct a as [y1 mo1 d1 h1 mi1 s1 u1], b as [y2 mo2 d2 h2 mi2 s2 u2],
    c as [y3 mo3 d3 h3 mi3 s3 u3].
  unfold datetime_lt. simpl. intros Hab Hcb.
  destruct (Z.compare_spec y1 y3) as [Ey|Ey|Ey]; [|left; exact Ey|lia].
  right. split; [exact Ey|].
  destruct (Z.compare_spec mo1 mo3) as [Em|Em|Em]; [|left; exact Em|lia].
  right. split; [exact Em|].
  destruct (Z.compare_spec d1 d3) as [Ed|Ed|Ed]; [|left; exact Ed|lia].
  right. split; [exact Ed|].
  destruct (Z.compare_spec h1 h3) as [Eh|Eh|Eh]; [|left; exact Eh|lia].
  right. split; [exact Eh|].
  destruct (Z.compare_spec mi1 mi3) as [Ei|Ei|Ei]; [|left; exact Ei|lia].
  right. split; [exact Ei|].
  destruct (Z.compare_spec s1 s3) as [Es|Es|Es]; [|left; exact Es|lia].
  right. split; [exact Es|]. lia.
Qed.

Section DateProperties.
Context {clock : Clock} {crypto : Cryptography}.

(** X5.  A certificate that [check_cert_not_after] finds expired at one
    reading of the clock is found expired, with the same exception, at
    every reading that is not earlier. *)
Theorem expired_stays_expired (cert : certificate) (w w' : world) (e : exn) :
  ~ datetime_lt (clock_at (clock_reads w')) (clock_at (clock_reads w)) ->
  fst (check_cert_not_after (Some cert) w) = Raise e ->
  fst (check_cert_not_after (Some cert) w') = Raise e.
Proof.
  intros Hlater. unfold check_cert_not_after, bind, utcnow. simpl.
  destruct (datetime_ltb (not_valid_after cert) (clock_at (clock_reads w)))
    eqn:E; simpl; [|discriminate].
  intros He. apply datetime_ltb_lt in E.
  pose proof (datetime_lt_not_lt_trans _ _ _ E Hlater) as E'.
  apply datetime_ltb_lt in E'. rewrite E'. exact He.
Qed.

End DateProperties.

Lemma year_lengths :
  forallb year_length_ok (seq 0 (Z.to_nat 10000)) = true.
Proof. vm_compute. reflexivity. Qed.

Lemma decimal_year_length (y : Z) :
  (0 <= y < 10000)%Z ->
  String.length (decimal y) = year_digits (Z.to_nat y).
Proof.
  intros Hy. pose proof year_lengths as Hall.
  rewrite forallb_forall in Hall.
  specialize (Hall (Z.to_nat y)).
  unfold year_length_ok in Hall. rewrite Z2Nat.id in Hall by lia.
  apply Nat.eqb_eq, Hall. apply in_seq. lia.
Qed.

(** X6.  The text that [strftime] prints is the year in decimal, not
    padded, followed by 16 characters: 20 characters for the years 1000 to
    9999 and fewer for the years before 1000.  The whole message of the
    expired-certificate error determines the expiry time to the second:
    equal messages come from datetimes that differ in the microseconds at
    most. *)
Theorem expiry_message_identifies_second (a b : datetime) :
  printable a -> printable b ->
  String.length (strftime a) = String.length (decimal (year a)) + 16
  /\ ((1000 <= year a < 10000)%Z -> String.length (strftime a) = 20)
  /\ ((year a < 1000)%Z -> String.length (strftime a) < 20)
  /\ (expired_message a = expired_message b ->
      with_microsecond 0 a = with_microsecond 0 b).
Proof.
  intros Ha Hb. split; [apply strftime_length|].
  split; [|split].
  - intros Hy. rewrite strftime_length, decimal_year_length by lia.
    unfold year_digits.
    destruct (Z.to_nat (year a) <? 10)%nat eqn:E1; [apply Nat.ltb_lt in E1; lia|].
    destruct (Z.to_nat (year a) <? 100)%nat eqn:E2; [apply Nat.ltb_lt in E2; lia|].
    destruct (Z.to_nat (year a) <? 1000)%nat eqn:E3; [apply Nat.ltb_lt in E3; lia|].
    reflexivity.
  - intros Hy. destruct Ha as (Hy0 & _).
    rewrite strftime_length, decimal_year_length by lia.
    unfold year_digits.
    destruct (Z.to_nat (year a) <? 10)%nat; [lia|].
    destruct (Z.to_nat (year a) <? 100)%nat; [lia|].
    destruct (Z.to_nat (year a) <? 1000)%nat eqn:E3; [lia|].
    apply Nat.ltb_ge in E3. lia.
  - intros E. unfold expired_message in E.
    destruct (append_inj_length _ _ _ _ eq_refl E) as [_ E'].
    apply strftime_inj; assumption.
Qed.

(** ** Passwords and the constructor *)

Lemma encode_utf8_ascii (s : list N) :
  Forall (fun cp => (cp < 128)%N) s -> encode_utf8 s = Ok (map byte_of_N s).
Proof.
  induction 1 as [|cp s Hcp _ IH]; simpl; [reflexivity|].
  unfold utf8_encode_char. apply N.ltb_lt in Hcp. rewrite Hcp, IH.
  reflexivity.
Qed.

Lemma utf8_encode_char_None (cp : N) :
  utf8_encode_char cp = None <-> is_surrogate cp = true.
Proof.
  unfold utf8_encode_char, is_surrogate.
  destruct (cp <? 128)%N eqn:E1.
  { apply N.ltb_lt in E1. split; [discriminate|].
    intros Hs. apply andb_true_iff in Hs as [Hs _]. apply N.leb_le in Hs. lia. }
  destruct (cp <? 2048)%N eqn:E2.
  { apply N.ltb_lt in E2. split; [discriminate|].
    intros Hs. apply andb_true_iff in Hs as [Hs _]. apply N.leb_le in Hs. lia. }
  destruct (cp <? 65536)%N eqn:E3.
  { destruct ((55296 <=? cp)%N && (cp <=? 57343)%N); split; congruence. }
  apply N.ltb_ge in E3. split; [discriminate|].
  intros Hs. apply andb_true_iff in Hs as [_ Hs]. apply N.leb_le in Hs. lia.
Qed.

Lemma encode_utf8_surrogate (s : list N) :
  Exists (fun cp => is_surrogate cp = true) s ->
  exists msg, encode_utf8 s = Raise (Exn UnicodeEncodeError msg None).
Proof.
  induction 1 as [cp s Hcp|cp s _ IH]; simpl.
  - apply utf8_encode_char_None in Hcp. rewrite Hcp. eauto.
  - destruct IH as [msg ->]. destruct (utf8_encode_char cp); eauto.
Qed.

Lemma encode_utf8_no_surrogate (s : list N) :
  Forall (fun cp => is_surrogate cp = false) s ->
  exists b, encode_utf8 s = Ok b /\ length s <= length b <= 4 * length s.
Proof.
  induction 1 as [|cp s Hcp _ IH]; simpl.
  - exists []. simpl. split; [reflexivity|lia].
  - destruct IH as (rest & -> & Hlen).
    destruct (utf8_encode_char cp) as [b|] eqn:E.
    + exists (b ++ rest). split; [reflexivity|]. rewrite length_app.
      assert (1 <= length b <= 4).
      { unfold utf8_encode_char in E.
        repeat match type of E with
        | (if ?c then _ else _) = _ => destruct c
        end; inversion E; simpl; lia. }
      lia.
    + apply utf8_encode_char_None in E. congruence.
Qed.

Section ConstructorProperties.
Context {clock : Clock} {crypto : Cryptography} {tls : TlsLibrary}
  {http : HttpClient}.
Variable default_ssl_protocol : ssl_protocol.

(** X7.  A text password stands for its UTF-8 encoding: constructing the
    adapter with an ASCII text password is constructing it with the bytes
    of its characters, whatever the other arguments and the world. *)
Theorem Pkcs12Adapter_init_text_password (args : list pyval)
    (data : option bytes) (filename : option string) (s : list N)
    (proto : option ssl_protocol) (rest : gmap string pyval) (w : world) :
  Forall (fun cp => (cp < 128)%N) s ->
  Pkcs12Adapter_init default_ssl_protocol args
    (mk_keywords data filename (PyStr s) proto rest) w =
  Pkcs12Adapter_init default_ssl_protocol args
    (mk_keywords data filename (PyBytes (map byte_of_N s)) proto rest) w.
Proof.
  intros Hs. unfold Pkcs12Adapter_init. simpl.
  rewrite (encode_utf8_ascii s Hs). reflexivity.
Qed.

(** X8.  A text password can be encoded unless it holds a lone surrogate,
    and the encoding has between one and four bytes per character.  With a
    lone surrogate in the password the constructor raises a
    [UnicodeEncodeError] before the bundle is decoded: the world is as it
    was. *)
Theorem Pkcs12Adapter_init_surrogate_password (args : list pyval)
    (data : bytes) (s : list N) (proto : option ssl_protocol)
    (rest : gmap string pyval) (w : world) :
  (Forall (fun cp => is_surrogate cp = false) s ->
   exists b, password_bytes (PyStr s) = Ok (Some b)
             /\ length s <= length b <= 4 * length s)
  /\ (Exists (fun cp => is_surrogate cp = true) s ->
      exists msg,
        Pkcs12Adapter_init default_ssl_protocol args
          (mk_keywords (Some data) None (PyStr s) proto rest) w =
        (Raise (Exn UnicodeEncodeError msg None), w)).
Proof.
  split.
  - intros Hs. destruct (encode_utf8_no_surrogate s Hs) as (b & E & Hlen).
    exists b. simpl. rewrite E. split; [reflexivity|exact Hlen].
  - intros Hs. destruct (encode_utf8_surrogate s Hs) as (msg & E).
    exists msg. unfold Pkcs12Adapter_init, bind, ret, lift. simpl.
    rewrite E. reflexivity.
Qed.

(** X9.  Constructing the adapter from a file name is constructing it from
    the bytes of that file, the reading of the file being the only
    difference; when the file does not exist the constructor raises the
    [FileNotFoundError] of [open] and nothing else happens, whatever the
    password. *)
Theorem Pkcs12Adapter_init_from_file (args : list pyval) (filename : string)
    (password : pyval) (proto : option ssl_protocol)
    (rest : gmap string pyval) (w : world) :
  let from_file :=
    Pkcs12Adapter_init default_ssl_protocol args
      (mk_keywords None (Some filename) password proto rest) in
  (forall data,
     fs w !! filename = Some data ->
     from_file w =
       Pkcs12Adapter_init default_ssl_protocol args
         (mk_keywords (Some data) None password proto rest)
         (add_event (EvRead filename) w))
  /\ (fs w !! filename = None ->
      from_file w = (Raise (no_such_file filename), w)).
Proof.
  intros from_file. unfold from_file, Pkcs12Adapter_init. simpl. split.
  - intros data Hf. unfold bind at 1 5. unfold read_file, ret. rewrite Hf.
    reflexivity.
  - intros Hf. unfold bind at 1. unfold read_file. rewrite Hf. reflexivity.
Qed.

(** X10.  An adapter that the constructor returns holds a context object
    that did not exist before the call, and when [create_sslcontext]
    raises, the constructor raises the same exception without running
    [HTTPAdapter.__init__]. *)
Theorem Pkcs12Adapter_init_owns_context (args : list pyval) (data : bytes)
    (password : pyval) (proto : option ssl_protocol)
    (rest : gmap string pyval) (w : world) :
  let init :=
    Pkcs12Adapter_init default_ssl_protocol args
      (mk_keywords (Some data) None password proto rest) w in
  let protocol :=
    match proto with Some p => p | None => default_ssl_protocol end in
  (forall adapter,
     fst init = Ok adapter -> adapter_ssl_context adapter = next_loc w)
  /\ (forall pw e w1,
        password_bytes password = Ok pw ->
        create_sslcontext data pw protocol w = (Raise e, w1) ->
        init = (Raise e, w1)).
Proof.
  intros init protocol. unfold init, Pkcs12Adapter_init. simpl.
  fold protocol. split.
  - intros adapter. unfold bind, ret, lift.
    destruct (password_bytes password) as [pw|e]; [|discriminate].
    destruct (create_sslcontext data pw protocol w) as [[ctx|e] w1] eqn:Ec;
      [|discriminate].
    pose proof (create_sslcontext_returns_next_loc data pw protocol w ctx) as Hctx.
    rewrite Ec in Hctx. specialize (Hctx eq_refl).
    destruct (HTTPAdapter_init args rest w1) as [[base|e] w2]; [|discriminate].
    simpl. intros [= <-]. exact Hctx.
  - intros pw e w1 Hpw Hc. unfold bind, ret, lift. rewrite Hpw, Hc.
    reflexivity.
Qed.

End ConstructorProperties.

(** ** The request wrapper *)

Section RequestProperties.
Context {clock : Clock} {crypto : Cryptography} {tls : TlsLibrary}
  {http : HttpClient}.
Variable default_ssl_protocol : ssl_protocol.

Lemma request_with_credentials_shape args kwargs w :
  (kw_pkcs12_data kwargs <> None \/ kw_pkcs12_filename kwargs <> None \/
   kw_pkcs12_password kwargs <> PyNone) ->
  request default_ssl_protocol args kwargs w =
    (if decide ("cert" ∈ dom (kw_rest kwargs))
     then raise cert_conflict_error
     else
       do session <- Session;
       try_finally
         (do pkcs12_adapter <-
            Pkcs12Adapter_init default_ssl_protocol []
              (adapter_keywords default_ssl_protocol kwargs);
          Session_mount session "https://"
            (adapter_ssl_context pkcs12_adapter)
            (adapter_base pkcs12_adapter) ;;
          Session_request session args (kw_rest kwargs))
         (Session_close session)) w.
Proof.
  intros Hsome. unfold request, adapter_keywords.
  destruct (kw_pkcs12_data kwargs) as [d|]; [reflexivity|].
  destruct (kw_pkcs12_filename kwargs) as [f|]; [reflexivity|].
  destruct (kw_pkcs12_password kwargs); try reflexivity.
  destruct Hsome as [E|[E|E]]; contradiction.
Qed.

(** X11.  A [cert] argument conflicts with every [pkcs12_*] argument: as soon
    as one of the three is given together with [cert], the wrapper raises
    the conflict [ValueError] and nothing else happens -- no session, no
    file read, nothing decoded. *)
Theorem request_cert_conflict (args : list pyval) (kwargs : keywords)
    (w : world) :
  (kw_pkcs12_data kwargs <> None \/ kw_pkcs12_filename kwargs <> None \/
   kw_pkcs12_password kwargs <> PyNone) ->
  "cert" ∈ dom (kw_rest kwargs) ->
  request default_ssl_protocol args kwargs w = (Raise cert_conflict_error, w).
Proof.
  intros Hsome Hcert. rewrite (request_with_credentials_shape _ _ _ Hsome).
  rewrite decide_True by exact Hcert. reflexivity.
Qed.

(** X12.  With a [pkcs12_*] argument and no [cert], a session that was
    opened is closed on every path, whatever the adapter constructor, the
    mounting and the request do; an adapter constructor that raises keeps
    the request from being sent, and its exception is the wrapper's when
    closing the session succeeds. *)
Theorem request_closes_session (args : list pyval) (kwargs : keywords)
    (w w1 : world) (s : session) :
  (kw_pkcs12_data kwargs <> None \/ kw_pkcs12_filename kwargs <> None \/
   kw_pkcs12_password kwargs <> PyNone) ->
  "cert" ∉ dom (kw_rest kwargs) ->
  Session w = (Ok s, w1) ->
  (exists w_last,
     snd (request default_ssl_protocol args kwargs w) =
       snd (Session_close s w_last))
  /\ (forall e w2 w3,
        Pkcs12Adapter_init default_ssl_protocol [] (adapter_keywords default_ssl_protocol kwargs) w1
          = (Raise e, w2) ->
        Session_close s w2 = (Ok tt, w3) ->
        request default_ssl_protocol args kwargs w = (Raise e, w3)).
Proof.
  intros Hsome Hcert Hs.
  pose proof (request_with_credentials_shape args kwargs w Hsome) as Hrun.
  rewrite decide_False in Hrun by exact Hcert.
  unfold bind at 1 in Hrun. rewrite Hs in Hrun. rewrite Hrun.
  split.
  - eexists. apply try_finally_world.
  - intros e w2 w3 Hinit Hclose.
    eapply try_finally_fin_ok; [|exact Hclose].
    unfold bind. rewrite Hinit. reflexivity.
Qed.

(** X13.  With a [pkcs12_*] argument and no [cert], once the adapter is
    constructed and mounted -- for the prefix [https://] and with no
    positional and no further keyword argument of the caller -- the
    wrapper's outcome is that of [session.request] on the caller's
    remaining arguments, followed by the closing of the session. *)
Theorem request_through_session (args : list pyval) (kwargs : keywords)
    (w w1 w2 w3 : world) (s : session) (adapter : Pkcs12Adapter) :
  (kw_pkcs12_data kwargs <> None \/ kw_pkcs12_filename kwargs <> None \/
   kw_pkcs12_password kwargs <> PyNone) ->
  "cert" ∉ dom (kw_rest kwargs) ->
  Session w = (Ok s, w1) ->
  Pkcs12Adapter_init default_ssl_protocol [] (adapter_keywords default_ssl_protocol kwargs) w1
    = (Ok adapter, w2) ->
  Session_mount s "https://" (adapter_ssl_context adapter)
    (adapter_base adapter) w2 = (Ok tt, w3) ->
  request default_ssl_protocol args kwargs w =
    try_finally (Session_request s args (kw_rest kwargs)) (Session_close s) w3.
Proof.
  intros Hsome Hcert Hs Hinit Hmount.
  rewrite (request_with_credentials_shape _ _ _ Hsome).
  rewrite decide_False by exact Hcert. unfold bind at 1. rewrite Hs.
  apply try_finally_ext. unfold bind. rewrite Hinit, Hmount. reflexivity.
Qed.

(** *** The request methods *)

Lemma setdefault_present key v kwargs old :
  kw_rest kwargs !! key = Some old -> setdefault key v kwargs = kwargs.
Proof. intros E. unfold setdefault. rewrite E. destruct kwargs; reflexivity. Qed.

Lemma setdefault_absent key v kwargs :
  kw_rest kwargs !! key = None ->
  setdefault key v kwargs =
    mk_keywords (kw_pkcs12_data kwargs) (kw_pkcs12_filename kwargs)
      (kw_pkcs12_password kwargs) (kw_ssl_protocol kwargs)
      (<[key := v]> (kw_rest kwargs)).
Proof. intros E. unfold setdefault. rewrite E. reflexivity. Qed.

(** X14.  [get] and [options] follow redirects and [head] does not, unless
    the caller says otherwise: a caller's [allow_redirects] is passed on as
    it is, and only when there is none does the method add its default.
    [delete], [patch], [post] and [put] pass the keyword arguments on
    unchanged.  Each method puts its name in front of the positional
    arguments. *)
Theorem method_allow_redirects (args : list pyval) (kwargs : keywords) :
  let call name kw := request default_ssl_protocol (py_str name :: args) kw in
  let with_default b :=
    mk_keywords (kw_pkcs12_data kwargs) (kw_pkcs12_filename kwargs)
      (kw_pkcs12_password kwargs) (kw_ssl_protocol kwargs)
      (<["allow_redirects" := PyBool b]> (kw_rest kwargs)) in
  (forall v, kw_rest kwargs !! "allow_redirects" = Some v ->
     Methods.get default_ssl_protocol args kwargs = call "get" kwargs
     /\ Methods.head default_ssl_protocol args kwargs = call "head" kwargs
     /\ Methods.options default_ssl_protocol args kwargs = call "options" kwargs)
  /\ (kw_rest kwargs !! "allow_redirects" = None ->
      Methods.get default_ssl_protocol args kwargs =
        call "get" (with_default true)
      /\ Methods.head default_ssl_protocol args kwargs =
           call "head" (with_default false)
      /\ Methods.options default_ssl_protocol args kwargs =
           call "options" (with_default true))
  /\ Methods.delete default_ssl_protocol args kwargs = call "delete" kwargs
  /\ Methods.patch default_ssl_protocol args kwargs = call "patch" kwargs
  /\ Methods.post default_ssl_protocol args kwargs = call "post" kwargs
  /\ Methods.put default_ssl_protocol args kwargs = call "put" kwargs.
Proof.
  intros call with_default. split; [|split].
  - intros v Hv. unfold Methods.get, Methods.head, Methods.options.
    rewrite !(setdefault_present _ _ _ _ Hv). repeat split.
  - intros Hnone. unfold Methods.get, Methods.head, Methods.options.
    rewrite !(setdefault_absent _ _ _ Hnone). repeat split.
  - repeat split.
Qed.

(** X15.  Without any [pkcs12_*] argument, [get] is the plain client's
    request with the method name ["get"] in front and with
    [allow_redirects=True] added when the caller gave none; no session is
    opened and no adapter is constructed. *)
Theorem get_without_credentials (args : list pyval) (kwargs : keywords)
    (w : world) :
  kw_pkcs12_data kwargs = None ->
  kw_pkcs12_filename kwargs = None ->
  kw_pkcs12_password kwargs = PyNone ->
  Methods.get default_ssl_protocol args kwargs w =
    requests_request (py_str "get" :: args)
      (match kw_rest kwargs !! "allow_redirects" with
       | Some _ => kw_rest kwargs
       | None => <["allow_redirects" := PyBool true]> (kw_rest kwargs)
       end) w.
Proof.
  intros Hd Hf Hp. unfold Methods.get, request, setdefault. simpl.
  rewrite Hd, Hf, Hp. reflexivity.
Qed.

End RequestProperties.

(** ** The adapter's hooks *)

Section HookProperties.
Context {http : HttpClient} {pools : PoolManagers}.

(** X16.  Two requests in a row through one adapter, the first with
    [verify=False] and the second with any other [verify]: the second
    one's wrapped [send] starts in the world the first call left, in which
    [check_hostname] is what it was before the first call, and it is the
    same again after the second call. *)
Theorem consecutive_sends (self : Pkcs12Adapter)
    (request1 request2 : prepared_request)
    (stream1 timeout1 cert1 proxies1 stream2 timeout2 verify2 cert2 proxies2
       : pyval) (w : world) :
  verify2 <> PyBool false ->
  let ctx := adapter_ssl_context self in
  let before := check_hostname (heap w ctx) in
  let w1 :=
    snd (send self request1 stream1 timeout1 (PyBool false) cert1 proxies1 w) in
  let wrapped2 :=
    HTTPAdapter_send (adapter_base self) request2 stream2 timeout2 verify2
      cert2 proxies2 w1 in
  let second := send self request2 stream2 timeout2 verify2 cert2 proxies2 w1 in
  check_hostname (heap w1 ctx) = before
  /\ fst second = fst wrapped2
  /\ check_hostname (heap (snd second) ctx) = before.
Proof.
  intros Hne ctx before w1 wrapped2 second.
  assert (E : is_False verify2 = false).
  { destruct (is_False verify2) eqn:E; [|reflexivity].
    apply is_False_spec in E. contradiction. }
  assert (H1 : check_hostname (heap w1 ctx) = before).
  { unfold w1, send. rewrite guard_shape. apply check_hostname_after_set. }
  split; [exact H1|].
  unfold second, send. rewrite guard_shape, E. cbn [fst snd].
  split; [reflexivity|].
  rewrite check_hostname_after_set. exact H1.
Qed.

(** X17.  When hostname checking was on before the call, the context's
    verify mode is not [CERT_NONE] after [cert_verify] and after [send],
    whatever [verify] was and whatever the wrapped operation did to the
    context: assigning [True] back to [check_hostname] switches a verify
    mode of [CERT_NONE] to [CERT_REQUIRED]. *)
Theorem verification_on_after_call (self : Pkcs12Adapter) (conn : connection)
    (url : string) (request : prepared_request)
    (stream timeout verify cert proxies : pyval) (w : world) :
  let ctx := adapter_ssl_context self in
  check_hostname (heap w ctx) = true ->
  ctx_verify_mode (heap (snd (cert_verify self conn url verify cert w)) ctx)
    <> CERT_NONE
  /\ ctx_verify_mode
       (heap (snd (send self request stream timeout verify cert proxies w)) ctx)
     <> CERT_NONE.
Proof.
  intros ctx Hon.
  assert (Hmode : forall c, ctx_verify_mode (assign_check_hostname true c)
                            <> CERT_NONE).
  { intros c. simpl. destruct (ctx_verify_mode c); discriminate. }
  split.
  - unfold cert_verify. rewrite guard_shape. fold ctx. rewrite Hon. simpl.
    rewrite update_heap_same. apply Hmode.
  - unfold send. rewrite guard_shape. fold ctx. rewrite Hon. simpl.
    rewrite update_heap_same. apply Hmode.
Qed.

(** X18.  [init_poolmanager] and [proxy_manager_for] hand the keyword
    arguments on with [ssl_context] bound to the adapter's context object
    -- the one whose flag [cert_verify] and [send] switch -- in place of
    any [ssl_context] of the caller, and with every other keyword argument
    as the caller gave it. *)
Theorem pool_managers_use_adapter_context (self : Pkcs12Adapter)
    (args : list pyval) (kwargs : gmap string kwarg) :
  exists passed : gmap string kwarg,
    init_poolmanager self args kwargs =
      HTTPAdapter_init_poolmanager (adapter_base self) args passed
    /\ proxy_manager_for self args kwargs =
         HTTPAdapter_proxy_manager_for (adapter_base self) args passed
    /\ passed !! "ssl_context" = Some (KwContext (adapter_ssl_context self))
    /\ (forall key, key <> "ssl_context" -> passed !! key = kwargs !! key)
    /\ dom passed = {[ "ssl_context" ]} ∪ dom kwargs.
Proof.
  exists (<["ssl_context" := KwContext (adapter_ssl_context self)]> kwargs).
  split; [reflexivity|]. split; [reflexivity|].
  split; [apply lookup_insert_eq|]. split.
  - intros key Hkey. apply lookup_insert_ne. congruence.
  - apply dom_insert_L.
Qed.

End HookProperties.

(** ** The further properties on the sample certificate store *)

Lemma accepting_tls_keeps_files : @tls_keeps_files accepting_tls.
Proof.
  intros files ctx path password. simpl. unfold accepting_load.
  destruct (files !! path); reflexivity.
Qed.

Lemma create_sslcontext_leaves_no_file_witness :
  @tls_keeps_files accepting_tls
  /\ fs (snd (create_sslcontext [Byte.x02] None PROTOCOL_TLS_CLIENT
                sample_world)) = fs sample_world.
Proof.
  split; [exact accepting_tls_keeps_files|].
  apply (create_sslcontext_leaves_no_file (clock := sample_clock)
           (crypto := sample_crypto) (tls := accepting_tls)).
  exact accepting_tls_keeps_files.
Defined.

Lemma create_sslcontext_load_outcome_witness :
  let r := create_sslcontext [Byte.x01] None PROTOCOL_TLS_CLIENT sample_world in
  sample_decode [Byte.x01] None =
    Ok (Some Byte.x07, Some sample_leaf, [sample_ca1; sample_ca2])
  /\ fst r = Ok 0
  /\ cert_chain (heap (snd r) 0) =
       Some (pem_sequence (crypto := sample_crypto) sample_key_block
               sample_leaf [sample_ca1; sample_ca2], None).
Proof.
  split; [reflexivity|].
  destruct (create_sslcontext_load_outcome (clock := sample_clock)
              (crypto := sample_crypto) (tls := accepting_tls)
              [Byte.x01] None PROTOCOL_TLS_CLIENT sample_world
              (Byte.x07 : @private_key sample_crypto)
              (sample_leaf : @certificate sample_crypto)
              ([sample_ca1; sample_ca2] : list (@certificate sample_crypto))
              sample_key_block (Ok tt)
              (<[tmp_name sample_world :=
                   pem_sequence (crypto := sample_crypto) sample_key_block
                     sample_leaf [sample_ca1; sample_ca2]]> (fs sample_world))
              (mk_ssl_context PROTOCOL_TLS_CLIENT true CERT_REQUIRED
                 (Some (pem_sequence (crypto := sample_crypto) sample_key_block
                          sample_leaf [sample_ca1; sample_ca2], None)))
              eq_refl eq_refl) as (E1 & E2 & _).
  - intros [|[|i]] x Hx; try discriminate; injection Hx as <-; reflexivity.
  - reflexivity.
  - simpl. unfold accepting_load. rewrite lookup_insert_eq. reflexivity.
  - rewrite lookup_insert_eq. discriminate.
  - split; [exact E1|exact (f_equal cert_chain E2)].
Defined.

Lemma expired_stays_expired_witness :
  ~ datetime_lt (clock_at (clock_reads (tick sample_world)))
      (clock_at (clock_reads sample_world))
  /\ fst (check_cert_not_after (Some sample_old_leaf) (tick sample_world)) =
       Raise (Exn ValueError
                (expired_message (sample_not_valid_after sample_old_leaf)) None).
Proof.
  assert (Hlater : ~ datetime_lt (clock_at (clock_reads (tick sample_world)))
                       (clock_at (clock_reads sample_world))).
  { intros L. apply datetime_ltb_lt in L. discriminate. }
  split; [exact Hlater|].
  apply (expired_stays_expired (clock := sample_clock)
           (crypto := sample_crypto)
           (sample_old_leaf : @certificate sample_crypto)
           sample_world (tick sample_world) _ Hlater).
  reflexivity.
Defined.

Lemma sample_now_printable : printable sample_now.
Proof. unfold printable. simpl. lia. Qed.

Definition year_999 : datetime := mk_datetime 999 1 2 3 4 5 0.

Lemma year_999_printable : printable year_999.
Proof. unfold printable. simpl. lia. Qed.

Example strftime_samples :
  strftime sample_now = "2024-06-01 12:00:00Z"
  /\ strftime year_999 = "999-01-02 03:04:05Z".
Proof. split; reflexivity. Qed.

Lemma expiry_message_identifies_second_witness :
  printable sample_now
  /\ printable year_999
  /\ String.length (strftime sample_now) = 20
  /\ String.length (strftime year_999) < 20.
Proof.
  split; [exact sample_now_printable|]. split; [exact year_999_printable|].
  split.
  - apply (expiry_message_identifies_second sample_now year_999
             sample_now_printable year_999_printable). simpl. lia.
  - apply (expiry_message_identifies_second year_999 sample_now
             year_999_printable sample_now_printable). simpl. lia.
Defined.

Lemma Pkcs12Adapter_init_text_password_witness :
  Forall (fun cp => (cp < 128)%N) [112%N; 119%N]
  /\ Pkcs12Adapter_init PROTOCOL_TLS_CLIENT []
       (mk_keywords (Some [Byte.x01]) None (PyStr [112%N; 119%N]) None ∅)
       sample_world =
     Pkcs12Adapter_init PROTOCOL_TLS_CLIENT []
       (mk_keywords (Some [Byte.x01]) None (PyBytes [Byte.x70; Byte.x77]) None ∅)
       sample_world.
Proof.
  assert (Hs : Forall (fun cp => (cp < 128)%N) [112%N; 119%N])
    by (repeat constructor).
  split; [exact Hs|].
  apply (Pkcs12Adapter_init_text_password (clock := sample_clock)
           (crypto := sample_crypto) (tls := accepting_tls)
           (http := sample_http) PROTOCOL_TLS_CLIENT []
           (Some [Byte.x01]) None [112%N; 119%N] None ∅ sample_world Hs).
Defined.

Lemma request_cert_conflict_witness :
  (kw_pkcs12_data data_and_cert_keywords <> None \/
   kw_pkcs12_filename data_and_cert_keywords <> None \/
   kw_pkcs12_password data_and_cert_keywords <> PyNone)
  /\ ("cert" ∈ dom (kw_rest data_and_cert_keywords))
  /\ request PROTOCOL_TLS_CLIENT [] data_and_cert_keywords sample_world =
       (Raise cert_conflict_error, sample_world).
Proof.
  assert (Hsome : kw_pkcs12_data data_and_cert_keywords <> None \/
                  kw_pkcs12_filename data_and_cert_keywords <> None \/
                  kw_pkcs12_password data_and_cert_keywords <> PyNone)
    by (left; discriminate).
  assert (Hcert : "cert" ∈ dom (kw_rest data_and_cert_keywords))
    by (simpl; set_solver).
  split; [exact Hsome|]. split; [exact Hcert|].
  apply (request_cert_conflict (clock := sample_clock) (crypto := sample_crypto)
           (tls := accepting_tls) (http := sample_http)
           PROTOCOL_TLS_CLIENT [] data_and_cert_keywords sample_world
           Hsome Hcert).
Defined.

Lemma request_closes_session_witness :
  (kw_pkcs12_data (password_only_keywords ∅) <> None \/
   kw_pkcs12_filename (password_only_keywords ∅) <> None \/
   kw_pkcs12_password (password_only_keywords ∅) <> PyNone)
  /\ ("cert" ∉ dom (kw_rest (password_only_keywords ∅)))
  /\ exists w_last,
       snd (request PROTOCOL_TLS_CLIENT [] (password_only_keywords ∅)
              sample_world) = snd (Session_close tt w_last).
Proof.
  assert (Hsome : kw_pkcs12_data (password_only_keywords ∅) <> None \/
                  kw_pkcs12_filename (password_only_keywords ∅) <> None \/
                  kw_pkcs12_password (password_only_keywords ∅) <> PyNone)
    by (right; right; discriminate).
  assert (Hcert : "cert" ∉ dom (kw_rest (password_only_keywords ∅)))
    by (simpl; set_solver).
  split; [exact Hsome|]. split; [exact Hcert|].
  apply (request_closes_session (clock := sample_clock)
           (crypto := sample_crypto) (tls := accepting_tls)
           (http := sample_http) PROTOCOL_TLS_CLIENT []
           (password_only_keywords ∅) sample_world sample_world tt
           Hsome Hcert eq_refl).
Defined.

Lemma request_through_session_witness :
  (kw_pkcs12_data data_keywords <> None \/
   kw_pkcs12_filename data_keywords <> None \/
   kw_pkcs12_password data_keywords <> PyNone)
  /\ ("cert" ∉ dom (kw_rest data_keywords))
  /\ fst (Pkcs12Adapter_init PROTOCOL_TLS_CLIENT []
            (adapter_keywords PROTOCOL_TLS_CLIENT data_keywords) sample_world)
     = Ok sample_adapter
  /\ fst (request PROTOCOL_TLS_CLIENT [] data_keywords sample_world) = Ok 200.
Proof.
  assert (Hsome : kw_pkcs12_data data_keywords <> None \/
                  kw_pkcs12_filename data_keywords <> None \/
                  kw_pkcs12_password data_keywords <> PyNone)
    by (left; discriminate).
  assert (Hcert : "cert" ∉ dom (kw_rest data_keywords))
    by (simpl; set_solver).
  split; [exact Hsome|]. split; [exact Hcert|]. split; [reflexivity|].
  assert (Hinit :
    Pkcs12Adapter_init PROTOCOL_TLS_CLIENT []
      (adapter_keywords PROTOCOL_TLS_CLIENT data_keywords) sample_world =
    (Ok sample_adapter,
     snd (Pkcs12Adapter_init PROTOCOL_TLS_CLIENT []
            (adapter_keywords PROTOCOL_TLS_CLIENT data_keywords)
            sample_world))).
  { rewrite (surjective_pairing (Pkcs12Adapter_init _ _ _ _)) at 1.
    f_equal. }
  rewrite (request_through_session (clock := sample_clock)
             (crypto := sample_crypto) (tls := accepting_tls)
             (http := sample_http) PROTOCOL_TLS_CLIENT [] data_keywords
             sample_world sample_world
             (snd (Pkcs12Adapter_init PROTOCOL_TLS_CLIENT []
                     (adapter_keywords PROTOCOL_TLS_CLIENT data_keywords)
                     sample_world))
             (snd (Pkcs12Adapter_init PROTOCOL_TLS_CLIENT []
                     (adapter_keywords PROTOCOL_TLS_CLIENT data_keywords)
                     sample_world))
             tt sample_adapter Hsome Hcert eq_refl Hinit eq_refl).
  reflexivity.
Defined.

Lemma get_without_credentials_witness :
  Methods.get PROTOCOL_TLS_CLIENT [py_str sample_url]
    (mk_keywords None None PyNone None ∅) sample_world =
  requests_request [py_str "get"; py_str sample_url]
    {[ "allow_redirects" := PyBool true ]} sample_world.
Proof.
  apply (get_without_credentials (clock := sample_clock)
           (crypto := sample_crypto) (tls := accepting_tls)
           (http := sample_http) PROTOCOL_TLS_CLIENT [py_str sample_url]
           (mk_keywords None None PyNone None ∅) sample_world
           eq_refl eq_refl eq_refl).
Defined.

Lemma consecutive_sends_witness :
  PyBool true <> PyBool false
  /\ check_hostname
       (heap (snd (send (http := failing_http)
                     (mk_Pkcs12Adapter (http := failing_http) 0 tt) tt
                     PyNone PyNone (PyBool false) PyNone PyNone
                     unchecked_world)) 0) = false.
Proof.
  assert (Hne : PyBool true <> PyBool false) by discriminate.
  split; [exact Hne|].
  apply (consecutive_sends (http := failing_http)
           (mk_Pkcs12Adapter (http := failing_http) 0 tt) tt tt
           PyNone PyNone PyNone PyNone PyNone PyNone (PyBool true) PyNone
           PyNone unchecked_world Hne).
Defined.

Lemma verification_on_after_call_witness :
  check_hostname (heap sample_world 0) = true
  /\ ctx_verify_mode
       (heap (snd (send sample_adapter tt PyNone PyNone (PyBool false) PyNone
                     PyNone sample_world)) 0) <> CERT_NONE.
Proof.
  split; [reflexivity|].
  apply (verification_on_after_call (http := sample_http) sample_adapter tt
           sample_url tt PyNone PyNone (PyBool false) PyNone PyNone
           sample_world eq_refl).
Defined.
